(** * Code execution engine: the session orchestrator of [backend/main.py]

    A shallow embedding of [CodeExecutor.execute], [CodeExecutor._run_container]
    and the websocket endpoint [execute_code].  The Python code talks to three
    outside parties: the websocket, the filesystem under [TEMP_DIR] and the
    Docker daemon.  Their effects are kept in an explicit [World]; what they
    answer (and where they raise) is given by an [Env] of oracles.  Python
    exceptions are values of an error monad over the world, with
    [try]/[except]/[finally] written out as combinators. *)

From Stdlib Require Import String Ascii List ZArith Lia Bool DecimalString.
From Stdlib Require DecimalZ.
Import ListNotations.
Local Open Scope string_scope.

(** ** Python exceptions and results *)

(** [_run_container] catches [docker.errors.APIError] only; every other
    handler in the file is [except Exception].  Two classes are therefore
    enough; [exn_str] is [str(e)]. *)
Inductive ExnClass : Type := APIError | OtherException.

Record Exn : Type := mkExn { exn_class : ExnClass; exn_str : string }.

Definition is_APIError (e : Exn) : bool :=
  match exn_class e with APIError => true | OtherException => false end.

Definition is_Exception (e : Exn) : bool := true.

Inductive Result (A : Type) : Type :=
| Ok (a : A)
| Raise (e : Exn).
Arguments Ok {A} a.
Arguments Raise {A} e.

(** ** Frames sent on the websocket: [{"type": ..., "data": ...}] *)

Inductive FrameType : Type := status | output | error.

Record Frame : Type := mkFrame { ftype : FrameType; fdata : string }.

Definition Status (s : string) : Frame := mkFrame status s.
Definition Output (s : string) : Frame := mkFrame output s.
Definition Error (s : string) : Frame := mkFrame error s.

Definition FrameType_eqb (a b : FrameType) : bool :=
  match a, b with
  | status, status | output, output | error, error => true
  | _, _ => false
  end.

Definition Frame_eqb (f g : Frame) : bool :=
  FrameType_eqb (ftype f) (ftype g) && String.eqb (fdata f) (fdata g).

Definition is_output (f : Frame) : bool := FrameType_eqb (ftype f) output.
Definition is_error (f : Frame) : bool := FrameType_eqb (ftype f) error.
Definition is_status (f : Frame) : bool := FrameType_eqb (ftype f) status.

(** ** Language registry: [CodeExecutor.LANGUAGE_CONFIGS] *)

Record Config : Type := mkConfig {
  image : string;
  file_ext : string;
  compile_cmd : option string;
  run_cmd : string
}.

Definition LANGUAGE_CONFIGS : list (string * Config) :=
  [ ("python", mkConfig "python:3.11-slim" "py" None "python {filename}");
    ("cpp", mkConfig "gcc:latest" "cpp"
              (Some "g++ -o program {filename} -std=c++17") "./program");
    ("java", mkConfig "eclipse-temurin:17-jre" "java"
               (Some "javac {filename}") "java {classname}") ].

(** A Python [dict] with string keys, as an association list in insertion
    order; [dict_get] is [d.get(k)] / [d[k]] / [k in d]. *)
Fixpoint dict_get {V : Type} (d : list (string * V)) (k : string) : option V :=
  match d with
  | [] => None
  | (k', v) :: rest => if String.eqb k k' then Some v else dict_get rest k
  end.

Definition dict_get_default (d : list (string * string)) (k dflt : string) : string :=
  match dict_get d k with
  | Some v => v
  | None => dflt
  end.

(** ** [str.format] on the command templates

    Only plain named fields [{name}] occur in the templates of the
    registry; that is the fragment modelled.  A field that is not among the
    keyword arguments raises [KeyError], an unbalanced brace [ValueError]. *)
Fixpoint format_go (t : string) (field : option string)
         (kw : list (string * string)) : Result string :=
  match t with
  | EmptyString =>
      match field with
      | None => Ok EmptyString
      | Some _ => Raise (mkExn OtherException "expected '}' before end of string")
      end
  | String c rest =>
      match field with
      | None =>
          if Ascii.eqb c "{"%char then format_go rest (Some EmptyString) kw
          else if Ascii.eqb c "}"%char
               then Raise (mkExn OtherException "Single '}' encountered in format string")
          else match format_go rest None kw with
               | Ok s => Ok (String c s)
               | Raise e => Raise e
               end
      | Some name =>
          if Ascii.eqb c "}"%char then
            match dict_get kw name with
            | Some v =>
                match format_go rest None kw with
                | Ok s => Ok (v ++ s)
                | Raise e => Raise e
                end
            | None => Raise (mkExn OtherException ("'" ++ name ++ "'"))
            end
          else if Ascii.eqb c "{"%char
               then Raise (mkExn OtherException "unexpected '{' in field name")
          else format_go rest (Some (name ++ String c EmptyString)) kw
      end
  end.

Definition format (t : string) (kw : list (string * string)) : Result string :=
  format_go t None kw.

(** [f"{exit_code}"] for a Python [int]. *)
Definition str_int (z : Z) : string := NilZero.string_of_int (Z.to_int z).

(** ** Docker: the keyword arguments of [containers.run] *)

Record RunConfig : Type := mkRunConfig {
  rc_image : string;
  rc_command : string;
  rc_volumes : list (string * (string * string));  (* host path, (bind, mode) *)
  rc_working_dir : string;
  rc_network_mode : string;
  rc_mem_limit : string;
  rc_cpu_period : Z;
  rc_cpu_quota : Z;
  rc_detach : bool;
  rc_remove : bool;
  rc_stdout : bool;
  rc_stderr : bool
}.

(** What one container does, as seen by [_run_container]:
    - [spawn_fault]: [containers.run] raises;
    - [log_items]: the chunks yielded by [container.logs(stream=True,
      follow=True)], each given by the outcome of [line.decode('utf-8')]
      (the decoded text, or the [UnicodeDecodeError]);
    - [log_fault]: the log iterator raises after those chunks;
    - [wait_result]: [container.wait(timeout=10)['StatusCode']], or the
      exception raised by the wait (time-out, API error). *)
Record Container : Type := mkContainer {
  spawn_fault : option Exn;
  log_items : list (Result string);
  log_fault : option Exn;
  wait_result : Result Z
}.

(** ** The outside world *)

(** Oracles: everything the environment decides.
    - [recv]: what [websocket.receive_json()] returns (a JSON object whose
      fields are strings) or raises;
    - [send_fault n]: whether the [n]-th call of [websocket.send_json]
      raises (a client that has gone away);
    - [close_fault]: whether [websocket.close()] raises;
    - [uuid4]: the identifier drawn by [uuid.uuid4()];
    - [mkdir_fault], [write_fault]: operating-system errors of
      [work_dir.mkdir()] and [code_file.write_text(code)];
    - [container n]: the behaviour of the [n]-th container asked for;
    - [rmtree_ok]: whether the removal of the tree succeeds on disk. *)
Record Env : Type := mkEnv {
  recv : Result (list (string * string));
  send_fault : nat -> option Exn;
  close_fault : option Exn;
  uuid4 : string;
  mkdir_fault : option Exn;
  write_fault : option Exn;
  container : nat -> Container;
  rmtree_ok : bool
}.

(** State: the frames delivered so far (oldest first), the number of
    [send_json] calls made, whether the channel was closed, the directories
    and files under [TEMP_DIR], the [containers.run] calls made (oldest
    first) and the [shutil.rmtree] calls made. *)
Record World : Type := mkWorld {
  frames : list Frame;
  sends : nat;
  closed : bool;
  dirs : list string;
  files : list (string * string);
  docker_runs : list RunConfig;
  rmtree_calls : list string
}.

Definition initial_world : World := mkWorld [] 0 false [] [] [] [].

(** ** The monad of effectful Python code *)

Definition M (A : Type) : Type := World -> Result A * World.

Definition ret {A : Type} (a : A) : M A := fun w => (Ok a, w).

Definition raise {A : Type} (e : Exn) : M A := fun w => (Raise e, w).

Definition bind {A B : Type} (m : M A) (k : A -> M B) : M B :=
  fun w =>
    match m w with
    | (Ok a, w1) => k a w1
    | (Raise e, w1) => (Raise e, w1)
    end.

Definition lift {A : Type} (r : Result A) : M A := fun w => (r, w).

(** [try: body  except C as e: handler e], where [catches] tests the class. *)
Definition try_except {A : Type} (body : M A) (catches : Exn -> bool)
           (handler : Exn -> M A) : M A :=
  fun w =>
    match body w with
    | (Ok a, w1) => (Ok a, w1)
    | (Raise e, w1) => if catches e then handler e w1 else (Raise e, w1)
    end.

(** [try: body  finally: fin]: [fin] runs on every path; an exception of
    [fin] replaces the outcome of [body]. *)
Definition try_finally {A : Type} (body : M A) (fin : M unit) : M A :=
  fun w =>
    match body w with
    | (r, w1) =>
        match fin w1 with
        | (Ok _, w2) => (r, w2)
        | (Raise e, w2) => (Raise e, w2)
        end
    end.

Declare Scope py_scope.
Delimit Scope py_scope with py.
Notation "x <- m ;; k" := (bind m (fun x => k))
  (at level 61, m at next level, right associativity) : py_scope.
Notation "m ;; k" := (bind m (fun _ => k))
  (at level 61, right associativity) : py_scope.
Local Open Scope py_scope.

(** ** The program *)

Definition TEMP_DIR : string := "/tmp/code_execution".

(** [Path / name] and [str(path)]. *)
Definition path_join (d name : string) : string := d ++ "/" ++ name.

(** Truth value of [config["compile_cmd"]]: [None] and the empty string are
    false. *)
Definition truthy (o : option string) : bool :=
  match o with
  | None => false
  | Some s => negb (String.eqb s "")
  end.

Definition str_of_option (o : option string) : string :=
  match o with
  | None => "None"
  | Some s => s
  end.

(** The keyword arguments [_run_container] passes to
    [docker_client.containers.run]. *)
Definition run_config (image command work_dir : string) : RunConfig :=
  {| rc_image := image;
     rc_command := "sh -c '" ++ command ++ "'";
     rc_volumes := [(work_dir, ("/workspace", "rw"))];
     rc_working_dir := "/workspace";
     rc_network_mode := "none";
     rc_mem_limit := "256m";
     rc_cpu_period := 100000;
     rc_cpu_quota := 50000;
     rc_detach := true;
     rc_remove := true;
     rc_stdout := true;
     rc_stderr := true |}.

Section Executor.

Variable env : Env.

(** *** Primitives: the calls into the websocket, the filesystem, Docker *)

Definition send_json (f : Frame) : M unit :=
  fun w =>
    match send_fault env (sends w) with
    | Some e =>
        (Raise e,
         mkWorld (frames w) (S (sends w)) (closed w) (dirs w) (files w)
                 (docker_runs w) (rmtree_calls w))
    | None =>
        (Ok tt,
         mkWorld (frames w ++ [f]) (S (sends w)) (closed w) (dirs w) (files w)
                 (docker_runs w) (rmtree_calls w))
    end.

Definition websocket_close : M unit :=
  fun w =>
    match close_fault env with
    | Some e => (Raise e, w)
    | None =>
        (Ok tt,
         mkWorld (frames w) (sends w) true (dirs w) (files w)
                 (docker_runs w) (rmtree_calls w))
    end.

Definition receive_json : M (list (string * string)) := lift (recv env).

(** [work_dir.mkdir()]: [FileExistsError] when the directory is there. *)
Definition mkdir (path : string) : M unit :=
  fun w =>
    if existsb (String.eqb path) (dirs w)
    then (Raise (mkExn OtherException ("[Errno 17] File exists: '" ++ path ++ "'")), w)
    else match mkdir_fault env with
         | Some e => (Raise e, w)
         | None =>
             (Ok tt,
              mkWorld (frames w) (sends w) (closed w) (path :: dirs w) (files w)
                      (docker_runs w) (rmtree_calls w))
         end.

Definition write_text (path content : string) : M unit :=
  fun w =>
    match write_fault env with
    | Some e => (Raise e, w)
    | None =>
        (Ok tt,
         mkWorld (frames w) (sends w) (closed w) (dirs w)
                 ((path, content) :: files w)
                 (docker_runs w) (rmtree_calls w))
    end.

(** [shutil.rmtree(path, ignore_errors=True)]: never raises; when the
    removal fails on disk the tree stays. *)
Definition rmtree (path : string) : M unit :=
  fun w =>
    if rmtree_ok env
    then (Ok tt,
          mkWorld (frames w) (sends w) (closed w)
                  (filter (fun d => negb (String.eqb path d)) (dirs w))
                  (filter (fun pf => negb (String.prefix (path ++ "/") (fst pf)))
                          (files w))
                  (docker_runs w) (rmtree_calls w ++ [path]))
    else (Ok tt,
          mkWorld (frames w) (sends w) (closed w) (dirs w) (files w)
                  (docker_runs w) (rmtree_calls w ++ [path])).

(** [docker_client.containers.run(...)]: the call is recorded; the
    container it returns is the next one of the environment. *)
Definition containers_run (rc : RunConfig) : M Container :=
  fun w =>
    let c := container env (length (docker_runs w)) in
    let w1 := mkWorld (frames w) (sends w) (closed w) (dirs w) (files w)
                      (docker_runs w ++ [rc]) (rmtree_calls w) in
    match spawn_fault c with
    | Some e => (Raise e, w1)
    | None => (Ok c, w1)
    end.

(** [asyncio.sleep(0.01)]: pacing only. *)
Definition sleep : M unit := ret tt.

(** *** [CodeExecutor._run_container] *)

(** The body of [for line in container.logs(stream=True, follow=True)]. *)
Fixpoint stream_logs (items : list (Result string)) : M unit :=
  match items with
  | [] => ret tt
  | line :: rest =>
      decoded <- lift line ;;
      send_json (Output decoded) ;;
      sleep ;;
      stream_logs rest
  end.

(** The [try] block: stream the logs, wait, report a nonzero exit code. *)
Definition stream_and_wait (c : Container) : M unit :=
  stream_logs (log_items c) ;;
  match log_fault c with Some e => raise e | None => ret tt end ;;
  exit_code <- lift (wait_result c) ;;
  if negb (Z.eqb exit_code 0)
  then send_json (Error ("Process exited with code " ++ str_int exit_code))
  else ret tt.

Definition _run_container (image command work_dir status_msg : string) : M unit :=
  send_json (Status status_msg) ;;
  c <- containers_run (run_config image command work_dir) ;;
  try_except (stream_and_wait c) is_APIError
             (fun e => send_json (Error ("Docker error: " ++ exn_str e))).

(** *** [CodeExecutor.execute] *)

(** The [try] block of [execute]. *)
Definition execute_body (config : Config) (language code work_dir : string) : M unit :=
  let filename := "main." ++ file_ext config in
  let code_file := path_join work_dir filename in
  write_text code_file code ;;
  send_json (Status "Starting execution...") ;;
  (if truthy (compile_cmd config)
   then cmd <- lift (format (str_of_option (compile_cmd config))
                            [("filename", filename)]) ;;
        _run_container (image config) cmd work_dir "Compiling..."
   else ret tt) ;;
  let classname := if String.eqb language "java" then "main" else "None" in
  run_cmd <- lift (format (run_cmd config)
                          [("filename", filename); ("classname", classname)]) ;;
  _run_container (image config) run_cmd work_dir "Running..." ;;
  send_json (Status "Execution complete").

Definition execute (code language : string) : M unit :=
  match dict_get LANGUAGE_CONFIGS language with
  | None => send_json (Error ("Unsupported language: " ++ language))
  | Some config =>
      let execution_id := uuid4 env in
      let work_dir := path_join TEMP_DIR execution_id in
      mkdir work_dir ;;
      try_finally
        (try_except (execute_body config language code work_dir) is_Exception
                    (fun e => send_json (Error (exn_str e))))
        (rmtree work_dir)
  end.

(** *** The endpoint [execute_code] ([/ws/execute])

    The handshake [websocket.accept()] comes before the [try] and sends no
    frame; the model starts after it. *)

Definition execute_code : M unit :=
  try_finally
    (try_except
       (data <- receive_json ;;
        let code := dict_get_default data "code" "" in
        let language := dict_get_default data "language" "python" in
        execute code language)
       is_Exception
       (fun e => send_json (Error ("Server error: " ++ exn_str e))))
    websocket_close.

End Executor.

(** ** Derived notions used by the statements *)

(** The channel accepts every frame: no [send_json] raises. *)
Definition accepting (env : Env) : Prop := forall n, send_fault env n = None.

(** The world after the frames [fs] were sent on an accepting channel. *)
Definition emit (fs : list Frame) (w : World) : World :=
  mkWorld (frames w ++ fs) (sends w + length fs) (closed w) (dirs w) (files w)
          (docker_runs w) (rmtree_calls w).

Definition with_run (rc : RunConfig) (w : World) : World :=
  mkWorld (frames w) (sends w) (closed w) (dirs w) (files w)
          (docker_runs w ++ [rc]) (rmtree_calls w).

(** The texts streamed before the first chunk that fails to decode, and
    that failure. *)
Fixpoint streamed (items : list (Result string)) : list string * option Exn :=
  match items with
  | [] => ([], None)
  | Ok s :: rest => let (ts, f) := streamed rest in (s :: ts, f)
  | Raise e :: _ => ([], Some e)
  end.

(** What the [try] block of [_run_container] does with a container on an
    accepting channel: the frames it sends and how it ends. *)
Definition try_outcome (c : Container) : list Frame * Result unit :=
  let (ts, f) := streamed (log_items c) in
  match f with
  | Some e => (map Output ts, Raise e)
  | None =>
      match log_fault c with
      | Some e => (map Output ts, Raise e)
      | None =>
          match wait_result c with
          | Raise e => (map Output ts, Raise e)
          | Ok n =>
              if Z.eqb n 0 then (map Output ts, Ok tt)
              else ((map Output ts
                       ++ [Error ("Process exited with code " ++ str_int n)])%list,
                    Ok tt)
          end
      end
  end.

(** The frames and the result of one whole phase on an accepting channel. *)
Definition phase_frames (status_msg : string) (c : Container) : list Frame :=
  Status status_msg ::
  match spawn_fault c with
  | Some _ => []
  | None =>
      match snd (try_outcome c) with
      | Ok _ => fst (try_outcome c)
      | Raise e =>
          if is_APIError e
          then (fst (try_outcome c)
                  ++ [Error ("Docker error: " ++ exn_str e)])%list
          else fst (try_outcome c)
      end
  end.

Definition phase_result (c : Container) : Result unit :=
  match spawn_fault c with
  | Some e => Raise e
  | None =>
      match snd (try_outcome c) with
      | Ok _ => Ok tt
      | Raise e => if is_APIError e then Ok tt else Raise e
      end
  end.

(** A container that runs to its end: it is created, every chunk of its
    log decodes, the log closes and the wait returns the exit code. *)
Definition terminates_with (c : Container) (texts : list string) (n : Z) : Prop :=
  spawn_fault c = None /\ log_items c = map Ok texts
  /\ log_fault c = None /\ wait_result c = Ok n.

(** The resource policy of section 4.3, as a test on the arguments of one
    [containers.run] call: no network, 256 MiB ("256m"), half a core
    (quota 50000 of period 100000), the workspace mounted read-write at
    [/workspace] which is the working directory, the command wrapped in
    [sh -c], automatic removal. *)
Definition policy_ok (rc : RunConfig) : bool :=
  String.eqb (rc_network_mode rc) "none"
  && String.eqb (rc_mem_limit rc) "256m"
  && Z.eqb (rc_cpu_period rc) 100000
  && Z.eqb (2 * rc_cpu_quota rc) (rc_cpu_period rc)
  && String.eqb (rc_working_dir rc) "/workspace"
  && match rc_volumes rc with
     | [(_, (bind_point, mode))] =>
         String.eqb bind_point "/workspace" && String.eqb mode "rw"
     | _ => false
     end
  && String.prefix "sh -c '" (rc_command rc)
  && rc_remove rc.

(** *** The state machine the code follows

    This is the machine of the implementation, read off [execute] and
    [_run_container]; it is NOT the lifecycle of the specification
    ([spec_step] below is).  It reads the frames of one session.  An Error
    frame that [_run_container] sends itself (a nonzero exit code, a Docker
    API error) does not end the session: after it the compile phase hands
    over to the run phase ([CompileReported]) and the run phase to the
    final Status ([RunReported]).  Only [Done] and [Failed] are final. *)
Inductive State : Type :=
| Created | Started | Compiling | CompileReported
| Running | RunReported | Done | Failed.

Definition step (s : State) (f : Frame) : option State :=
  match s, ftype f with
  | Created, status =>
      if String.eqb (fdata f) "Starting execution..." then Some Started else None
  | Started, status =>
      if String.eqb (fdata f) "Compiling..." then Some Compiling
      else if String.eqb (fdata f) "Running..." then Some Running else None
  | Compiling, output => Some Compiling
  | Compiling, error => Some CompileReported
  | (Compiling | CompileReported), status =>
      if String.eqb (fdata f) "Running..." then Some Running else None
  | Running, output => Some Running
  | Running, error => Some RunReported
  | (Running | RunReported), status =>
      if String.eqb (fdata f) "Execution complete" then Some Done else None
  | (Created | Started | CompileReported | RunReported), error => Some Failed
  | _, _ => None
  end.

Fixpoint run_from (s : State) (fs : list Frame) : option State :=
  match fs with
  | [] => Some s
  | f :: rest =>
      match step s f with
      | Some s' => run_from s' rest
      | None => None
      end
  end.

(** A sequence of frames the machine of the code accepts. *)
Definition valid_path (fs : list Frame) : Prop :=
  exists s, run_from Created fs = Some s.

(** *** The session state machine of the specification

    Section 3: Created, workspace allocated, Compiling (if declared),
    Running, terminal (Completed or Failed).  Section 4.2: a nonzero
    compile exit code is reported by an Error event and the run phase
    proceeds; after the run phase exit code 0 yields the completion Status
    and a nonzero one the Error; any fault is emitted as an Error event.
    Section 6: the stream ends after the terminal status/error frame.  So
    every Error frame is terminal but the report of a compile exit code,
    the completion Status is terminal, and nothing follows a terminal
    frame. *)
Inductive SpecState : Type :=
| SpecCreated | SpecAllocated | SpecCompiling | SpecCompileFailed
| SpecRunning | SpecCompleted | SpecFailed.

Definition spec_step (s : SpecState) (f : Frame) : option SpecState :=
  match s, ftype f with
  | SpecCreated, status =>
      if String.eqb (fdata f) "Starting execution..."
      then Some SpecAllocated else None
  | SpecAllocated, status =>
      if String.eqb (fdata f) "Compiling..." then Some SpecCompiling
      else if String.eqb (fdata f) "Running..." then Some SpecRunning else None
  | SpecCompiling, output => Some SpecCompiling
  | SpecCompiling, error =>
      if String.prefix "Process exited with code " (fdata f)
      then Some SpecCompileFailed else Some SpecFailed
  | (SpecCompiling | SpecCompileFailed), status =>
      if String.eqb (fdata f) "Running..." then Some SpecRunning else None
  | SpecRunning, output => Some SpecRunning
  | SpecRunning, status =>
      if String.eqb (fdata f) "Execution complete"
      then Some SpecCompleted else None
  | (SpecCreated | SpecAllocated | SpecCompileFailed | SpecRunning), error =>
      Some SpecFailed
  | _, _ => None
  end.

Fixpoint spec_run (s : SpecState) (fs : list Frame) : option SpecState :=
  match fs with
  | [] => Some s
  | f :: rest =>
      match spec_step s f with
      | Some s' => spec_run s' rest
      | None => None
      end
  end.

(** A valid path through the machine of the specification. *)
Definition spec_valid_path (fs : list Frame) : Prop :=
  exists s, spec_run SpecCreated fs = Some s.

(** *** Vocabulary of the session-level statements *)

Definition with_dir (path : string) (w : World) : World :=
  mkWorld (frames w) (sends w) (closed w) (path :: dirs w) (files w)
          (docker_runs w) (rmtree_calls w).

Definition with_file (path content : string) (w : World) : World :=
  mkWorld (frames w) (sends w) (closed w) (dirs w) ((path, content) :: files w)
          (docker_runs w) (rmtree_calls w).

Definition work_dir_of (env : Env) : string := path_join TEMP_DIR (uuid4 env).

(** The workspace can be allocated: the directory is new and neither
    [mkdir] nor [write_text] fails. *)
Definition allocates (env : Env) (w : World) : Prop :=
  existsb (String.eqb (work_dir_of env)) (dirs w) = false
  /\ mkdir_fault env = None /\ write_fault env = None.

(** A healthy session: the channel accepts every frame and the workspace
    can be allocated. *)
Definition healthy (env : Env) (w : World) : Prop :=
  accepting env /\ allocates env w.

Definition compile_command (config : Config) : Result string :=
  format (str_of_option (compile_cmd config))
         [("filename", "main." ++ file_ext config)].

Definition run_command (config : Config) (language : string) : Result string :=
  format (run_cmd config)
         [("filename", "main." ++ file_ext config);
          ("classname", if String.eqb language "java" then "main" else "None")].

(** The containers of a session started in [w]: the compile unit (when the
    profile declares a compile command) is the next container, the run unit
    the one after it. *)
Definition compile_unit (env : Env) (w : World) : Container :=
  container env (length (docker_runs w)).

Definition run_unit (env : Env) (config : Config) (w : World) : Container :=
  container env (if truthy (compile_cmd config)
                 then S (length (docker_runs w))
                 else length (docker_runs w)).

(** The compile phase, if there is one, hands over to the run phase: it
    did not end in an exception that leaves [_run_container]. *)
Definition compile_returns (env : Env) (config : Config) (w : World) : Prop :=
  truthy (compile_cmd config) = true ->
  phase_result (compile_unit env w) = Ok tt.

Definition compile_frames (env : Env) (config : Config) (w : World) : list Frame :=
  if truthy (compile_cmd config)
  then phase_frames "Compiling..." (compile_unit env w)
  else [].

(** The frame that reports the exit code [n], if it is not 0. *)
Definition exit_report (n : Z) : list Frame :=
  if Z.eqb n 0 then []
  else [Error ("Process exited with code " ++ str_int n)].

(** The text carried by the Output frames of a sequence, in order. *)
Definition output_text (fs : list Frame) : string :=
  String.concat "" (map fdata (filter is_output fs)).

(** A computation keeps the relation [R] between the world it starts in
    and the world it leaves, however it ends. *)
Definition preserves {A : Type} (R : World -> World -> Prop) (m : M A) : Prop :=
  forall w, R w (snd (m w)).

(** The [containers.run] calls only grow, and every new call obeys the
    resource policy. *)
Definition runs_under_policy (w w' : World) : Prop :=
  exists l, docker_runs w' = (docker_runs w ++ l)%list
            /\ Forall (fun rc => policy_ok rc = true) l.

(** Nothing is spawned and the filesystem is not touched. *)
Definition same_resources (w w' : World) : Prop :=
  dirs w' = dirs w /\ files w' = files w
  /\ docker_runs w' = docker_runs w /\ rmtree_calls w' = rmtree_calls w.

(** The directories and the record of removals are untouched. *)
Definition same_dirs (w w' : World) : Prop :=
  dirs w' = dirs w /\ rmtree_calls w' = rmtree_calls w.

(** The channel only grows, by frames that satisfy [P]. *)
Definition frames_grow (P : Frame -> Prop) (w w' : World) : Prop :=
  exists l, frames w' = (frames w ++ l)%list /\ Forall P l.

(** Two worlds that agree on everything but the filesystem. *)
Definition same_channel (w1 w2 : World) : Prop :=
  frames w1 = frames w2 /\ sends w1 = sends w2 /\ closed w1 = closed w2
  /\ docker_runs w1 = docker_runs w2 /\ rmtree_calls w1 = rmtree_calls w2.

(** The two Error frames [_run_container] can send: the report of a
    nonzero exit code and the report of a Docker API error. *)
Definition exit_code_frame (n : Z) : Frame :=
  Error ("Process exited with code " ++ str_int n).

Definition docker_error_frame (e : Exn) : Frame :=
  Error ("Docker error: " ++ exn_str e).

Definition backend_frame (f : Frame) : Prop :=
  ftype f = error ->
  (exists n, n <> 0%Z /\ f = exit_code_frame n)
  \/ (exists e, is_APIError e = true /\ f = docker_error_frame e).

(** An infrastructure fault met by [_run_container] while it streams or
    waits: the unit was created and the [try] block ends in an
    [APIError]. *)
Definition api_fault (c : Container) (e : Exn) : Prop :=
  spawn_fault c = None /\ snd (try_outcome c) = Raise e
  /\ is_APIError e = true.

(** The frames one session adds to the channel. *)
Definition session_frames (env : Env) (w : World) : list Frame :=
  skipn (length (frames w)) (frames (snd (execute_code env w))).

(** Started in state [s] of the machine, the computation sends frames the
    machine accepts, and ends with a result and in a state related by [Q]. *)
Definition traces {A : Type} (s : State) (m : M A)
           (Q : Result A -> State -> Prop) : Prop :=
  forall w, exists l s',
    frames (snd (m w)) = (frames w ++ l)%list
    /\ run_from s l = Some s' /\ Q (fst (m w)) s'.

(** The state in which a phase has reported an error. *)
Definition reported (p : State) : State :=
  match p with
  | Compiling => CompileReported
  | _ => RunReported
  end.

(** The run phase has started. *)
Definition running_or_later (s : State) : bool :=
  match s with
  | Running | RunReported | Done | Failed => true
  | _ => false
  end.

(** The session has not ended: an Error frame can still be reported. *)
Definition open (s : State) : bool :=
  match s with
  | Done | Failed => false
  | _ => true
  end.

Definition in_compile (s : State) : bool :=
  match s with
  | Compiling | CompileReported => true
  | _ => false
  end.

(** The two states in which a unit streams its output. *)
Definition is_phase (p : State) : Prop := p = Compiling \/ p = Running.

(** ** Environments for the examples *)

Definition with_recv (env : Env) (r : Result (list (string * string))) : Env :=
  mkEnv r (send_fault env) (close_fault env) (uuid4 env) (mkdir_fault env)
        (write_fault env) (container env) (rmtree_ok env).

Definition with_rmtree_ok (env : Env) (b : bool) : Env :=
  mkEnv (recv env) (send_fault env) (close_fault env) (uuid4 env)
        (mkdir_fault env) (write_fault env) (container env) b.

Definition nl : string := String "010"%char EmptyString.

Definition python_profile : Config :=
  mkConfig "python:3.11-slim" "py" None "python {filename}".

Definition cpp_profile : Config :=
  mkConfig "gcc:latest" "cpp" (Some "g++ -o program {filename} -std=c++17")
           "./program".

Definition quiet_container : Container := mkContainer None [] None (Ok 0%Z).

(** A program that prints two lines, delivered in chunks that are not
    aligned on lines, and exits with 0. *)
Definition hello_container : Container :=
  mkContainer None [Ok "hel"; Ok ("lo" ++ nl ++ "world" ++ nl)] None (Ok 0%Z).

Definition hello_lines : list string := ["hello" ++ nl; "world" ++ nl].

(** A program that prints one chunk and exits with [n]. *)
Definition exit_container (n : Z) : Container :=
  mkContainer None [Ok "Traceback (most recent call last):"] None (Ok n).

(** A compiler run that succeeds with a warning. *)
Definition warning_container : Container :=
  mkContainer None [Ok "main.cpp:1:22: warning: division by zero"] None (Ok 0%Z).

(** A compiler run that fails, and the run of the missing binary. *)
Definition compile_error_container : Container :=
  mkContainer None [Ok "main.cpp:1:1: error: expected unqualified-id"] None
              (Ok 1%Z).

Definition not_found_container : Container :=
  mkContainer None [Ok "sh: 1: ./program: not found"] None (Ok 127%Z).

(** A unit whose log stream breaks with an error of the Docker API. *)
Definition api_error_container : Container :=
  mkContainer None [Ok "partial"]
              (Some (mkExn APIError "500 Server Error: Internal Server Error"))
              (Ok 0%Z).

(** A unit whose wait times out (not an [APIError]). *)
Definition timeout_container : Container :=
  mkContainer None [] None
              (Raise (mkExn OtherException "Read timed out. (read timeout=10)")).

Definition env_of (msg : list (string * string)) (cs : nat -> Container) : Env :=
  mkEnv (Ok msg) (fun _ => None) None "1b4e28ba" None None cs true.

Definition hello_code : string := "print('hello'); print('world')".

Definition env_hello : Env :=
  env_of [("code", hello_code); ("language", "python")] (fun _ => hello_container).

Definition env_exit3 : Env :=
  env_of [("code", "import sys; sys.exit(3)"); ("language", "python")]
         (fun _ => exit_container 3).

Definition cpp_code : string := "int main() { return 0 * (1 / 0); }".

Definition env_warning : Env :=
  env_of [("code", cpp_code); ("language", "cpp")]
         (fun n => match n with 0 => warning_container | _ => hello_container end).

Definition env_compile_error : Env :=
  env_of [("code", "int"); ("language", "cpp")]
         (fun n => match n with
                   | 0 => compile_error_container
                   | _ => not_found_container
                   end).

Definition env_ruby : Env :=
  env_of [("code", "puts 1"); ("language", "ruby")] (fun _ => quiet_container).

Definition env_empty_message : Env := env_of [] (fun _ => quiet_container).

Definition env_api_error : Env :=
  env_of [("code", hello_code); ("language", "python")]
         (fun _ => api_error_container).

Definition env_timeout : Env :=
  env_of [("code", hello_code); ("language", "python")]
         (fun _ => timeout_container).

(** A client that goes away after the first frame. *)
Definition env_disconnect : Env :=
  mkEnv (Ok [("code", hello_code); ("language", "python")])
        (fun n => match n with
                  | 0 => None
                  | _ => Some (mkExn OtherException "WebSocket is not connected")
                  end)
        None "1b4e28ba" None None (fun _ => hello_container) true.

(** ** Start-up and catalogue: [CodeExecutor.__init__], [get_languages]

    [__init__] looks every image of the registry up in the local image
    store of the daemon and pulls the ones that are not there.  The store,
    the [images.pull] calls made (oldest first) and the lines printed are
    the state; the daemon decides where [images.get] raises something
    other than [ImageNotFound] and where [images.pull] raises. *)
Record ImageOracle : Type := mkImageOracle {
  get_fault : string -> option Exn;
  pull_fault : string -> option Exn
}.

Record Images : Type := mkImages {
  local_images : list string;
  pulls : list string;
  printed : list string
}.

Inductive GetOutcome : Type :=
| ImagePresent
| ImageNotFound
| GetRaises (e : Exn).

(** [docker_client.images.get(name)]. *)
Definition images_get (o : ImageOracle) (name : string) (st : Images) : GetOutcome :=
  match get_fault o name with
  | Some e => GetRaises e
  | None =>
      if existsb (String.eqb name) (local_images st)
      then ImagePresent else ImageNotFound
  end.

(** [docker_client.images.pull(name)]: on success the image is in the
    store. *)
Definition images_pull (o : ImageOracle) (name : string) (st : Images)
  : Result unit * Images :=
  match pull_fault o name with
  | Some e => (Raise e, mkImages (local_images st) (pulls st ++ [name]) (printed st))
  | None =>
      (Ok tt, mkImages (name :: local_images st) (pulls st ++ [name]) (printed st))
  end.

Definition print (line : string) (st : Images) : Images :=
  mkImages (local_images st) (pulls st) (printed st ++ [line]).

(** The line printed before a pull: [f"Pulling {config['image']}..."]. *)
Definition pull_line (image_name : string) : string :=
  "Pulling " ++ image_name ++ "...".

(** The loop [for lang, config in self.LANGUAGE_CONFIGS.items()]. *)
Fixpoint init_loop (o : ImageOracle) (items : list (string * Config))
         (st : Images) : Result unit * Images :=
  match items with
  | [] => (Ok tt, st)
  | (lang, config) :: rest =>
      match images_get o (image config) st with
      | ImagePresent => init_loop o rest st
      | ImageNotFound =>
          let st1 := print (pull_line (image config)) st in
          match images_pull o (image config) st1 with
          | (Ok _, st2) => init_loop o rest st2
          | (Raise e, st2) => (Raise e, st2)
          end
      | GetRaises e => (Raise e, st)
      end
  end.

Definition __init__ (o : ImageOracle) (st : Images) : Result unit * Images :=
  init_loop o LANGUAGE_CONFIGS st.

(** The list served by [/languages]: [list(LANGUAGE_CONFIGS.keys())]. *)
Definition get_languages : list string := map fst LANGUAGE_CONFIGS.

(** The images of the registry. *)
Definition registry_images : list string :=
  map (fun item => image (snd item)) LANGUAGE_CONFIGS.

(** The calls and lines one start-up adds. *)
Definition new_pulls (o : ImageOracle) (st : Images) : list string :=
  skipn (length (pulls st)) (pulls (snd (__init__ o st))).

Definition new_printed (o : ImageOracle) (st : Images) : list string :=
  skipn (length (printed st)) (printed (snd (__init__ o st))).

Definition no_faults : ImageOracle := mkImageOracle (fun _ => None) (fun _ => None).

(** ** More vocabulary for the session *)

(** [l1] is [l2] with some frames left out. *)
Fixpoint subseq (l1 l2 : list Frame) : bool :=
  match l2 with
  | [] => match l1 with [] => true | _ => false end
  | y :: l2' =>
      match l1 with
      | [] => true
      | x :: l1' => if Frame_eqb x y then subseq l1' l2' else subseq l1 l2'
      end
  end.

(** The Status frames a session can still send from a state of the
    machine. *)
Definition statuses_from (s : State) : list Frame :=
  match s with
  | Created =>
      [Status "Starting execution..."; Status "Compiling...";
       Status "Running..."; Status "Execution complete"]
  | Started =>
      [Status "Compiling..."; Status "Running..."; Status "Execution complete"]
  | Compiling | CompileReported =>
      [Status "Running..."; Status "Execution complete"]
  | Running | RunReported => [Status "Execution complete"]
  | Done | Failed => []
  end.

(** The [containers.run] calls a computation added. *)
Definition new_runs (w w' : World) : list RunConfig :=
  skipn (length (docker_runs w)) (docker_runs w').

(** A file lies under a directory. *)
Definition under (dir : string) (pf : string * string) : bool :=
  String.prefix (dir ++ "/") (fst pf).

(** The channel is dead: every [send_json] raises. *)
Definition dead_channel (env : Env) : Prop := forall n, send_fault env n <> None.

Definition env_dead : Env :=
  mkEnv (Ok [("code", hello_code); ("language", "python")])
        (fun _ => Some (mkExn OtherException "WebSocket is not connected"))
        None "1b4e28ba" None None (fun _ => hello_container) true.

(** The [containers.run] calls a computation adds, related to how it
    ends. *)
Definition runs_spec {A : Type} (m : M A)
           (Q : Result A -> list RunConfig -> Prop) : Prop :=
  forall w, exists l,
    docker_runs (snd (m w)) = (docker_runs w ++ l)%list /\ Q (fst (m w)) l.

(** The files only grow, at the front, by files that satisfy [P]. *)
Definition files_grow (P : string * string -> Prop) (w w' : World) : Prop :=
  exists l, files w' = (l ++ files w)%list /\ Forall P l.

Definition same_closed (w w' : World) : Prop := closed w' = closed w.

Definition same_files (w w' : World) : Prop := files w' = files w.

(** A session whose workspace directory is already there. *)
Definition world_collision : World :=
  mkWorld [] 0 false ["/tmp/code_execution/1b4e28ba"]
          [("/tmp/code_execution/1b4e28ba/main.py", "print(1)")] [] [].

Definition env_recv_fails : Env :=
  mkEnv (Raise (mkExn OtherException "Expecting value: line 1 column 1 (char 0)"))
        (fun _ => None) None "1b4e28ba" None None (fun _ => quiet_container) true.

Definition env_write_fails : Env :=
  mkEnv (Ok [("code", hello_code); ("language", "python")]) (fun _ => None) None
        "1b4e28ba" None
        (Some (mkExn OtherException "[Errno 28] No space left on device"))
        (fun _ => hello_container) true.

(** The compile unit cannot be created. *)
Definition env_compile_spawn_fails : Env :=
  env_of [("code", cpp_code); ("language", "cpp")]
         (fun _ => mkContainer
                     (Some (mkExn APIError "500 Server Error: cannot allocate"))
                     [] None (Ok 0%Z)).

(** A chunk of the log is not valid UTF-8. *)
Definition env_bad_chunk : Env :=
  env_of [("code", hello_code); ("language", "python")]
         (fun _ => mkContainer None
                     [Ok "a";
                      Raise (mkExn OtherException
                               "'utf-8' codec can't decode byte 0xff in position 0: invalid start byte");
                      Ok "b"] None (Ok 0%Z)).

(** The log stream of the compile unit breaks with an API error; the run
    phase then runs the missing binary. *)
Definition env_compile_api_error : Env :=
  env_of [("code", cpp_code); ("language", "cpp")]
         (fun n => match n with
                   | 0 => api_error_container
                   | _ => not_found_container
                   end).

Definition env_exit1 : Env :=
  env_of [("code", "raise SystemExit(1)"); ("language", "python")]
         (fun _ => mkContainer None [] None (Ok 1%Z)).

(** Infrastructure faults whose message happens to read like the report
    of an exit code: the wait for the exit status fails (not an
    [APIError]), and the unit cannot be created. *)
Definition env_wait_fault_text : Env :=
  env_of [("code", "raise SystemExit(1)"); ("language", "python")]
         (fun _ => mkContainer None [] None
                     (Raise (mkExn OtherException "Process exited with code 1"))).

Definition env_spawn_fault_text : Env :=
  env_of [("code", "raise SystemExit(1)"); ("language", "python")]
         (fun _ => mkContainer
                     (Some (mkExn APIError "Process exited with code 1"))
                     [] None (Ok 0%Z)).

(** A daemon that cannot pull [gcc:latest], and one whose look-up of it
    fails. *)
Definition pull_gcc_fails : ImageOracle :=
  mkImageOracle
    (fun _ => None)
    (fun name => if String.eqb name "gcc:latest"
                 then Some (mkExn APIError "pull access denied") else None).

Definition get_gcc_fails : ImageOracle :=
  mkImageOracle
    (fun name => if String.eqb name "gcc:latest"
                 then Some (mkExn APIError "500 Server Error") else None)
    (fun _ => None).

(** A fault met by [_run_container] while it streams or waits that is not
    an [APIError] (a lost connection, a time-out of the wait, a chunk that
    does not decode): the [except docker.errors.APIError] clause lets it
    pass. *)
Definition plain_fault (c : Container) (e : Exn) : Prop :=
  spawn_fault c = None /\ snd (try_outcome c) = Raise e
  /\ is_APIError e = false.

(** ** Checks of the model on concrete sessions *)

Example run_python_hello :
  frames (snd (execute_code env_hello initial_world))
  = [Status "Starting execution..."; Status "Running...";
     Output "hel"; Output ("lo" ++ nl ++ "world" ++ nl);
     Status "Execution complete"].
Proof. reflexivity. Qed.

Example run_cpp_compile_error :
  frames (snd (execute_code env_compile_error initial_world))
  = [Status "Starting execution..."; Status "Compiling...";
     Output "main.cpp:1:1: error: expected unqualified-id";
     Error "Process exited with code 1";
     Status "Running...";
     Output "sh: 1: ./program: not found";
     Error "Process exited with code 127";
     Status "Execution complete"]
  /\ map rc_command (docker_runs (snd (execute_code env_compile_error initial_world)))
     = ["sh -c 'g++ -o program main.cpp -std=c++17'"; "sh -c './program'"].
Proof. split; reflexivity. Qed.

Example run_api_error :
  frames (snd (execute_code env_api_error initial_world))
  = [Status "Starting execution..."; Status "Running..."; Output "partial";
     Error "Docker error: 500 Server Error: Internal Server Error";
     Status "Execution complete"].
Proof. reflexivity. Qed.

Example run_wait_timeout :
  frames (snd (execute_code env_timeout initial_world))
  = [Status "Starting execution..."; Status "Running...";
     Error "Read timed out. (read timeout=10)"]
  /\ rmtree_calls (snd (execute_code env_timeout initial_world))
     = ["/tmp/code_execution/1b4e28ba"]
  /\ dirs (snd (execute_code env_timeout initial_world)) = [].
Proof. repeat split; reflexivity. Qed.

Example run_disconnect :
  let r := execute_code env_disconnect initial_world in
  fst r = Raise (mkExn OtherException "WebSocket is not connected")
  /\ frames (snd r) = [Status "Starting execution..."]
  /\ rmtree_calls (snd r) = ["/tmp/code_execution/1b4e28ba"]
  /\ closed (snd r) = true.
Proof. repeat split; reflexivity. Qed.

Example str_int_examples :
  str_int 0 = "0" /\ str_int 137 = "137" /\ str_int (-9) = "-9".
Proof. repeat split; reflexivity. Qed.

Example format_examples :
  format "python {filename}" [("filename", "main.py"); ("classname", "None")]
    = Ok "python main.py"
  /\ format "java {classname}" [("filename", "main.java"); ("classname", "main")]
    = Ok "java main"
  /\ format "g++ -o program {filename} -std=c++17" [("filename", "main.cpp")]
    = Ok "g++ -o program main.cpp -std=c++17".
Proof. repeat split; reflexivity. Qed.

#[local] Arguments String.append : simpl never.

(** ** The monad: how the combinators compute *)

Lemma bind_Ok {A B : Type} (m : M A) (k : A -> M B) w a w1 :
  m w = (Ok a, w1) -> bind m k w = k a w1.
Proof. intros H. unfold bind. now rewrite H. Qed.

Lemma bind_Raise {A B : Type} (m : M A) (k : A -> M B) w e w1 :
  m w = (Raise e, w1) -> bind m k w = (Raise e, w1).
Proof. intros H. unfold bind. now rewrite H. Qed.

Lemma try_except_Ok {A : Type} (m : M A) catches h w a w1 :
  m w = (Ok a, w1) -> try_except m catches h w = (Ok a, w1).
Proof. intros H. unfold try_except. now rewrite H. Qed.

Lemma try_except_caught {A : Type} (m : M A) catches h w e w1 :
  m w = (Raise e, w1) -> catches e = true -> try_except m catches h w = h e w1.
Proof. intros H C. unfold try_except. now rewrite H, C. Qed.

Lemma try_except_passed {A : Type} (m : M A) catches h w e w1 :
  m w = (Raise e, w1) -> catches e = false ->
  try_except m catches h w = (Raise e, w1).
Proof. intros H C. unfold try_except. now rewrite H, C. Qed.

(** ** An accepting channel: closed forms *)

Lemma emit_nil w : emit [] w = w.
Proof.
  destruct w; unfold emit; simpl. now rewrite app_nil_r, Nat.add_0_r.
Qed.

Lemma emit_emit fs1 fs2 w : emit fs2 (emit fs1 w) = emit (fs1 ++ fs2) w.
Proof.
  unfold emit; simpl. now rewrite <- app_assoc, length_app, Nat.add_assoc.
Qed.

Lemma emit_with_run fs rc w : emit fs (with_run rc w) = with_run rc (emit fs w).
Proof. reflexivity. Qed.

Lemma send_json_accepting env f w :
  accepting env -> send_json env f w = (Ok tt, emit [f] w).
Proof.
  intros H. unfold send_json, emit. rewrite H. simpl.
  now rewrite Nat.add_1_r.
Qed.

Lemma stream_logs_accepting env items w :
  accepting env ->
  stream_logs env items w
  = (match snd (streamed items) with None => Ok tt | Some e => Raise e end,
     emit (map Output (fst (streamed items))) w).
Proof.
  intros H. revert w. induction items as [|[s|e] rest IH]; intros w; simpl.
  - now rewrite emit_nil.
  - unfold bind at 1. unfold lift at 1.
    unfold bind at 1. rewrite send_json_accepting by assumption.
    unfold bind at 1. unfold sleep, ret at 1.
    rewrite IH. destruct (streamed rest) as [ts f]; simpl.
    now rewrite emit_emit.
  - unfold bind, lift. now rewrite emit_nil.
Qed.

Lemma stream_and_wait_accepting env c w :
  accepting env ->
  stream_and_wait env c w = (snd (try_outcome c), emit (fst (try_outcome c)) w).
Proof.
  intros H. unfold stream_and_wait, try_outcome.
  unfold bind at 1. rewrite stream_logs_accepting by assumption.
  destruct (streamed (log_items c)) as [ts [e|]]; simpl; [reflexivity|].
  unfold bind at 1.
  destruct (log_fault c) as [e|]; [reflexivity|].
  unfold ret at 1, bind, lift.
  destruct (wait_result c) as [n|e]; [|reflexivity].
  destruct (Z.eqb n 0); simpl.
  - unfold ret. reflexivity.
  - rewrite send_json_accepting by assumption. now rewrite emit_emit.
Qed.

Lemma containers_run_eq env rc w :
  containers_run env rc w
  = (match spawn_fault (container env (length (docker_runs w))) with
     | Some e => Raise e
     | None => Ok (container env (length (docker_runs w)))
     end, with_run rc w).
Proof.
  unfold containers_run, with_run.
  destruct (spawn_fault (container env (length (docker_runs w)))); reflexivity.
Qed.

Lemma _run_container_accepting env image command work_dir status_msg w :
  accepting env ->
  let c := container env (length (docker_runs w)) in
  _run_container env image command work_dir status_msg w
  = (phase_result c,
     with_run (run_config image command work_dir)
              (emit (phase_frames status_msg c) w)).
Proof.
  intros H c. unfold _run_container, phase_frames, phase_result.
  unfold bind at 1. rewrite send_json_accepting by assumption.
  unfold bind at 1. rewrite containers_run_eq.
  change (docker_runs (emit [Status status_msg] w)) with (docker_runs w).
  fold c.
  destruct (spawn_fault c) as [e|]; [reflexivity|].
  unfold try_except. rewrite stream_and_wait_accepting by assumption.
  destruct (snd (try_outcome c)) as [[]|e].
  - rewrite emit_with_run, emit_emit. reflexivity.
  - destruct (is_APIError e).
    + rewrite send_json_accepting by assumption.
      rewrite !emit_with_run, !emit_emit. reflexivity.
    + rewrite emit_with_run, emit_emit. reflexivity.
Qed.

(** ** The registry *)

Lemma registry_cases language config :
  dict_get LANGUAGE_CONFIGS language = Some config ->
  (language = "python"
   /\ config = mkConfig "python:3.11-slim" "py" None "python {filename}")
  \/ (language = "cpp"
      /\ config = mkConfig "gcc:latest" "cpp"
                    (Some "g++ -o program {filename} -std=c++17") "./program")
  \/ (language = "java"
      /\ config = mkConfig "eclipse-temurin:17-jre" "java"
                    (Some "javac {filename}") "java {classname}").
Proof.
  unfold LANGUAGE_CONFIGS, dict_get.
  destruct (String.eqb language "python") eqn:E1.
  { apply String.eqb_eq in E1. intros [= <-]. auto. }
  destruct (String.eqb language "cpp") eqn:E2.
  { apply String.eqb_eq in E2. intros [= <-]. auto. }
  destruct (String.eqb language "java") eqn:E3.
  { apply String.eqb_eq in E3. intros [= <-]. auto. }
  discriminate.
Qed.

(** The templates of the registry always format. *)
Lemma registry_commands language config :
  dict_get LANGUAGE_CONFIGS language = Some config ->
  (exists rcmd, run_command config language = Ok rcmd)
  /\ (truthy (compile_cmd config) = true ->
      exists ccmd, compile_command config = Ok ccmd).
Proof.
  intros H. destruct (registry_cases _ _ H) as [[-> ->]|[[-> ->]|[-> ->]]].
  - split; [eexists; reflexivity | discriminate].
  - split; [eexists; reflexivity | intros _; eexists; reflexivity].
  - split; [eexists; reflexivity | intros _; eexists; reflexivity].
Qed.

(** ** Closed forms of the session on an accepting channel *)

Lemma mkdir_ok env path w :
  existsb (String.eqb path) (dirs w) = false -> mkdir_fault env = None ->
  mkdir env path w = (Ok tt, with_dir path w).
Proof. intros H1 H2. unfold mkdir. now rewrite H1, H2. Qed.

Lemma write_text_ok env path content w :
  write_fault env = None ->
  write_text env path content w = (Ok tt, with_file path content w).
Proof. intros H. unfold write_text. now rewrite H. Qed.

Lemma length_snoc {X : Type} (l : list X) (x : X) : length (l ++ [x]) = S (length l).
Proof. rewrite length_app. simpl. lia. Qed.

Lemma execute_body_plain env config language code work_dir w rcmd :
  accepting env -> write_fault env = None ->
  truthy (compile_cmd config) = false ->
  run_command config language = Ok rcmd ->
  let c := container env (length (docker_runs w)) in
  let w1 := with_run (run_config (image config) rcmd work_dir)
              (emit (Status "Starting execution..." :: phase_frames "Running..." c)
                 (with_file (path_join work_dir ("main." ++ file_ext config)) code w)) in
  execute_body env config language code work_dir w
  = match phase_result c with
    | Ok _ => (Ok tt, emit [Status "Execution complete"] w1)
    | Raise e => (Raise e, w1)
    end.
Proof.
  intros Ha Hw Ht Hr c w1. unfold execute_body.
  unfold bind at 1. rewrite write_text_ok by assumption.
  unfold bind at 1. rewrite send_json_accepting by assumption.
  unfold bind at 1. rewrite Ht. unfold ret at 1.
  unfold bind at 1. unfold run_command in Hr. rewrite Hr. unfold lift at 1.
  unfold bind at 1. rewrite _run_container_accepting by assumption.
  cbv zeta.
  change (docker_runs (emit _ (with_file _ _ w))) with (docker_runs w).
  fold c. rewrite emit_emit. cbn [app]. fold w1.
  destruct (phase_result c) as [[]|e]; [|reflexivity].
  now rewrite send_json_accepting by assumption.
Qed.

Lemma execute_body_compiled env config language code work_dir w ccmd rcmd :
  accepting env -> write_fault env = None ->
  truthy (compile_cmd config) = true ->
  compile_command config = Ok ccmd ->
  run_command config language = Ok rcmd ->
  let c0 := container env (length (docker_runs w)) in
  let c1 := container env (S (length (docker_runs w))) in
  let w0 := with_run (run_config (image config) ccmd work_dir)
              (emit (Status "Starting execution..." :: phase_frames "Compiling..." c0)
                 (with_file (path_join work_dir ("main." ++ file_ext config)) code w)) in
  let w1 := with_run (run_config (image config) rcmd work_dir)
              (emit (phase_frames "Running..." c1) w0) in
  execute_body env config language code work_dir w
  = match phase_result c0 with
    | Raise e => (Raise e, w0)
    | Ok _ =>
        match phase_result c1 with
        | Ok _ => (Ok tt, emit [Status "Execution complete"] w1)
        | Raise e => (Raise e, w1)
        end
    end.
Proof.
  intros Ha Hw Ht Hc Hr c0 c1 w0 w1. unfold execute_body.
  unfold bind at 1. rewrite write_text_ok by assumption.
  unfold bind at 1. rewrite send_json_accepting by assumption.
  unfold bind at 1. rewrite Ht.
  unfold bind at 1. unfold compile_command in Hc. rewrite Hc. unfold lift at 1.
  rewrite _run_container_accepting by assumption. cbv zeta.
  change (docker_runs (emit _ (with_file _ _ w))) with (docker_runs w).
  fold c0. rewrite emit_emit. cbn [app]. fold w0.
  destruct (phase_result c0) as [[]|e]; [|reflexivity].
  unfold bind at 1. unfold run_command in Hr. rewrite Hr. unfold lift at 1.
  unfold bind at 1. rewrite _run_container_accepting by assumption. cbv zeta.
  replace (length (docker_runs w0)) with (S (length (docker_runs w)))
    by (unfold w0; simpl; now rewrite length_snoc).
  fold c1. fold w1.
  destruct (phase_result c1) as [[]|e]; [|reflexivity].
  now rewrite send_json_accepting by assumption.
Qed.

Lemma rmtree_eq env path w :
  fst (rmtree env path w) = Ok tt
  /\ frames (snd (rmtree env path w)) = frames w
  /\ sends (snd (rmtree env path w)) = sends w
  /\ closed (snd (rmtree env path w)) = closed w
  /\ docker_runs (snd (rmtree env path w)) = docker_runs w
  /\ rmtree_calls (snd (rmtree env path w)) = (rmtree_calls w ++ [path])%list.
Proof. unfold rmtree. destruct (rmtree_ok env); simpl; auto 10. Qed.

(** A [finally: shutil.rmtree(...)] changes neither the outcome nor the
    channel. *)
Lemma try_finally_rmtree {A : Type} env path (m : M A) w :
  fst (try_finally m (rmtree env path) w) = fst (m w)
  /\ frames (snd (try_finally m (rmtree env path) w)) = frames (snd (m w))
  /\ sends (snd (try_finally m (rmtree env path) w)) = sends (snd (m w))
  /\ closed (snd (try_finally m (rmtree env path) w)) = closed (snd (m w))
  /\ docker_runs (snd (try_finally m (rmtree env path) w))
     = docker_runs (snd (m w))
  /\ rmtree_calls (snd (try_finally m (rmtree env path) w))
     = (rmtree_calls (snd (m w)) ++ [path])%list.
Proof.
  unfold try_finally. destruct (m w) as [r w1].
  pose proof (rmtree_eq env path w1) as (E1 & E2 & E3 & E4 & E5 & E6).
  destruct (rmtree env path w1) as [[[]|e] w2]; simpl in *;
    [auto 10 | discriminate].
Qed.

(** [execute] on a supported language, once the workspace is allocated:
    the body, then the handler if the body raised, then the removal. *)
Lemma execute_allocated env code language config w :
  dict_get LANGUAGE_CONFIGS language = Some config ->
  existsb (String.eqb (work_dir_of env)) (dirs w) = false ->
  mkdir_fault env = None ->
  execute env code language w
  = try_finally
      (try_except
         (execute_body env config language code (work_dir_of env)) is_Exception
         (fun e => send_json env (Error (exn_str e))))
      (rmtree env (work_dir_of env))
      (with_dir (work_dir_of env) w).
Proof.
  intros Hl Hd Hm. unfold execute. rewrite Hl. cbv zeta.
  fold (work_dir_of env). unfold bind. now rewrite mkdir_ok.
Qed.

Lemma streamed_all_decoded texts : streamed (map Ok texts) = (texts, None).
Proof. induction texts as [|t ts IH]; simpl; [reflexivity | now rewrite IH]. Qed.

Lemma try_outcome_terminates c texts n :
  terminates_with c texts n ->
  try_outcome c = ((map Output texts ++ exit_report n)%list, Ok tt).
Proof.
  intros (_ & Hi & Hf & Hw). unfold try_outcome, exit_report.
  rewrite Hi, streamed_all_decoded, Hf, Hw.
  destruct (Z.eqb n 0); [now rewrite app_nil_r | reflexivity].
Qed.

Lemma phase_terminates msg c texts n :
  terminates_with c texts n ->
  phase_result c = Ok tt
  /\ phase_frames msg c = (Status msg :: map Output texts ++ exit_report n)%list.
Proof.
  intros H. pose proof (try_outcome_terminates _ _ _ H) as E.
  destruct H as (Hs & _). unfold phase_result, phase_frames.
  rewrite Hs, E. simpl. auto.
Qed.

(** The frames of a healthy session whose run unit terminates. *)
Lemma execute_run_terminates env code language config w texts n :
  dict_get LANGUAGE_CONFIGS language = Some config ->
  healthy env w -> compile_returns env config w ->
  terminates_with (run_unit env config w) texts n ->
  fst (execute env code language w) = Ok tt
  /\ frames (snd (execute env code language w))
     = (frames w
        ++ Status "Starting execution..." :: compile_frames env config w
        ++ Status "Running..." :: map Output texts ++ exit_report n
        ++ [Status "Execution complete"])%list.
Proof.
  intros Hl (Ha & Hd & Hm & Hw) Hc Ht.
  rewrite (execute_allocated _ _ _ _ _ Hl Hd Hm).
  destruct (registry_commands _ _ Hl) as [[rcmd Hr] Hcc].
  match goal with
  | |- context [try_finally ?m (rmtree env ?p) ?w0] =>
      destruct (try_finally_rmtree env p m w0) as (-> & -> & _)
  end.
  unfold try_except, compile_frames.
  unfold compile_returns in Hc. unfold run_unit in Ht.
  destruct (truthy (compile_cmd config)) eqn:Et.
  - destruct (Hcc eq_refl) as [ccmd Hcmd].
    rewrite (execute_body_compiled _ _ _ _ _ _ ccmd rcmd) by assumption.
    cbv zeta. change (docker_runs (with_dir _ w)) with (docker_runs w).
    unfold compile_unit in *. rewrite (Hc eq_refl).
    destruct (phase_terminates "Running..." _ _ _ Ht) as [-> ->].
    split; [reflexivity|]. simpl.
    rewrite <- !app_assoc. simpl. rewrite <- !app_assoc. reflexivity.
  - rewrite (execute_body_plain _ _ _ _ _ _ rcmd) by assumption.
    cbv zeta. change (docker_runs (with_dir _ w)) with (docker_runs w).
    destruct (phase_terminates "Running..." _ _ _ Ht) as [-> ->].
    split; [reflexivity|]. simpl.
    rewrite <- !app_assoc. simpl. rewrite <- !app_assoc. reflexivity.
Qed.

(** ** Invariants of the combinators and of the program, on every path *)

Section Preserves.

Variable R : World -> World -> Prop.
Hypothesis R_refl : forall w, R w w.
Hypothesis R_trans : forall a b c, R a b -> R b c -> R a c.

Lemma preserves_ret {A : Type} (a : A) : preserves R (ret a).
Proof. intros w. apply R_refl. Qed.

Lemma preserves_raise {A : Type} (e : Exn) : preserves R (@raise A e).
Proof. intros w. apply R_refl. Qed.

Lemma preserves_lift {A : Type} (r : Result A) : preserves R (lift r).
Proof. intros w. apply R_refl. Qed.

Lemma preserves_bind {A B : Type} (m : M A) (k : A -> M B) :
  preserves R m -> (forall a, preserves R (k a)) -> preserves R (bind m k).
Proof.
  intros Hm Hk w. unfold bind. specialize (Hm w).
  destruct (m w) as [[a|e] w1]; simpl in *; [|assumption].
  eapply R_trans; [eassumption | apply Hk].
Qed.

Lemma preserves_try_except {A : Type} (m : M A) catches h :
  preserves R m -> (forall e, catches e = true -> preserves R (h e)) ->
  preserves R (try_except m catches h).
Proof.
  intros Hm Hh w. unfold try_except. specialize (Hm w).
  destruct (m w) as [[a|e] w1]; simpl in *; [assumption|].
  destruct (catches e) eqn:E; [|assumption].
  eapply R_trans; [eassumption | now apply Hh].
Qed.

Lemma preserves_try_finally {A : Type} (m : M A) fin :
  preserves R m -> preserves R fin -> preserves R (try_finally m fin).
Proof.
  intros Hm Hf w. unfold try_finally. specialize (Hm w).
  destruct (m w) as [r w1]; simpl in *. specialize (Hf w1).
  destruct (fin w1) as [[[]|e] w2]; simpl in *; eapply R_trans; eassumption.
Qed.

Variable env : Env.
Hypothesis R_send : forall f, preserves R (send_json env f).
Hypothesis R_run :
  forall image command work_dir,
    preserves R (containers_run env (run_config image command work_dir)).

Lemma preserves_stream_logs items : preserves R (stream_logs env items).
Proof.
  induction items as [|line rest IH]; simpl.
  - apply preserves_ret.
  - apply preserves_bind; [apply preserves_lift | intros decoded].
    apply preserves_bind; [apply R_send | intros _].
    apply preserves_bind; [apply preserves_ret | intros _; exact IH].
Qed.

Lemma preserves_stream_and_wait c : preserves R (stream_and_wait env c).
Proof.
  unfold stream_and_wait.
  apply preserves_bind; [apply preserves_stream_logs | intros _].
  apply preserves_bind.
  { destruct (log_fault c); [apply preserves_raise | apply preserves_ret]. }
  intros _. apply preserves_bind; [apply preserves_lift | intros n].
  destruct (negb (Z.eqb n 0)); [apply R_send | apply preserves_ret].
Qed.

Lemma preserves_run_container image command work_dir status_msg :
  preserves R (_run_container env image command work_dir status_msg).
Proof.
  unfold _run_container.
  apply preserves_bind; [apply R_send | intros _].
  apply preserves_bind; [apply R_run | intros c].
  apply preserves_try_except; [apply preserves_stream_and_wait|].
  intros e _. apply R_send.
Qed.

Hypothesis R_write : forall path content, preserves R (write_text env path content).

Lemma preserves_execute_body config language code work_dir :
  preserves R (execute_body env config language code work_dir).
Proof.
  unfold execute_body.
  apply preserves_bind; [apply R_write | intros _].
  apply preserves_bind; [apply R_send | intros _].
  apply preserves_bind.
  { destruct (truthy (compile_cmd config)); [|apply preserves_ret].
    apply preserves_bind; [apply preserves_lift | intros cmd].
    apply preserves_run_container. }
  intros _. apply preserves_bind; [apply preserves_lift | intros cmd].
  apply preserves_bind; [apply preserves_run_container | intros _].
  apply R_send.
Qed.

(** The [try ... except Exception] of [execute]. *)
Lemma preserves_guarded_body config language code work_dir :
  preserves R
    (try_except (execute_body env config language code work_dir) is_Exception
                (fun e => send_json env (Error (exn_str e)))).
Proof.
  apply preserves_try_except; [apply preserves_execute_body|].
  intros e _. apply R_send.
Qed.

Hypothesis R_mkdir : forall path, preserves R (mkdir env path).
Hypothesis R_rmtree : forall path, preserves R (rmtree env path).

Lemma preserves_execute code language : preserves R (execute env code language).
Proof.
  unfold execute. destruct (dict_get LANGUAGE_CONFIGS language) as [config|].
  - cbv zeta. apply preserves_bind; [apply R_mkdir | intros _].
    apply preserves_try_finally; [apply preserves_guarded_body | apply R_rmtree].
  - apply R_send.
Qed.

Hypothesis R_close : preserves R (websocket_close env).

Lemma preserves_execute_code : preserves R (execute_code env).
Proof.
  unfold execute_code.
  apply preserves_try_finally; [|apply R_close].
  apply preserves_try_except.
  - apply preserves_bind; [apply preserves_lift | intros data].
    apply preserves_execute.
  - intros e _. apply R_send.
Qed.

End Preserves.

(** *** The resource policy on every path *)

Lemma runs_under_policy_refl w : runs_under_policy w w.
Proof. exists []. split; [now rewrite app_nil_r | constructor]. Qed.

Lemma runs_under_policy_trans a b c :
  runs_under_policy a b -> runs_under_policy b c -> runs_under_policy a c.
Proof.
  intros (l1 & E1 & F1) (l2 & E2 & F2). exists (l1 ++ l2)%list. split.
  - now rewrite E2, E1, app_assoc.
  - apply Forall_app; auto.
Qed.

Lemma same_runs_under_policy w w' :
  docker_runs w' = docker_runs w -> runs_under_policy w w'.
Proof. intros E. exists []. split; [now rewrite app_nil_r | constructor]. Qed.

Lemma policy_ok_run_config image command work_dir :
  policy_ok (run_config image command work_dir) = true.
Proof.
  unfold policy_ok, run_config. cbn -[String.prefix].
  change ("sh -c '" ++ command ++ "'") with
    (String "s" (String "h" (String " " (String "-" (String "c"
       (String " " (String "'" (command ++ "'")))))))).
  cbn. now destruct (command ++ "'").
Qed.

Lemma send_json_runs env f w : docker_runs (snd (send_json env f w)) = docker_runs w.
Proof. unfold send_json. now destruct (send_fault env (sends w)). Qed.

Lemma write_text_runs env p c w :
  docker_runs (snd (write_text env p c w)) = docker_runs w.
Proof. unfold write_text. now destruct (write_fault env). Qed.

Lemma mkdir_runs env p w : docker_runs (snd (mkdir env p w)) = docker_runs w.
Proof.
  unfold mkdir. destruct (existsb _ _); [reflexivity|].
  now destruct (mkdir_fault env).
Qed.

Lemma close_runs env w : docker_runs (snd (websocket_close env w)) = docker_runs w.
Proof. unfold websocket_close. now destruct (close_fault env). Qed.

Lemma containers_run_policy env image command work_dir :
  preserves runs_under_policy
            (containers_run env (run_config image command work_dir)).
Proof.
  intros w. rewrite containers_run_eq. simpl.
  exists [run_config image command work_dir]. split; [reflexivity|].
  constructor; [apply policy_ok_run_config | constructor].
Qed.

Lemma execute_code_policy env : preserves runs_under_policy (execute_code env).
Proof.
  apply preserves_execute_code.
  - apply runs_under_policy_refl.
  - apply runs_under_policy_trans.
  - intros f w. apply same_runs_under_policy, send_json_runs.
  - apply containers_run_policy.
  - intros p c w. apply same_runs_under_policy, write_text_runs.
  - intros p w. apply same_runs_under_policy, mkdir_runs.
  - intros p w. apply same_runs_under_policy. apply rmtree_eq.
  - intros w. apply same_runs_under_policy, close_runs.
Qed.

Lemma run_container_runs env image command work_dir status_msg w :
  let w' := snd (_run_container env image command work_dir status_msg w) in
  docker_runs w' = docker_runs w
  \/ docker_runs w' = (docker_runs w ++ [run_config image command work_dir])%list.
Proof.
  cbv zeta. unfold _run_container, bind.
  pose proof (send_json_runs env (Status status_msg) w) as E0.
  destruct (send_json env (Status status_msg) w) as [[[]|e] w0]; simpl in *;
    [|auto].
  rewrite containers_run_eq.
  destruct (spawn_fault _) as [e|]; simpl; [right; now rewrite E0|].
  right. rewrite <- E0.
  assert (H : preserves (fun a b => docker_runs b = docker_runs a)
                (try_except
                   (stream_and_wait env (container env (length (docker_runs w0))))
                   is_APIError
                   (fun e => send_json env (Error ("Docker error: " ++ exn_str e))))).
  { apply preserves_try_except; try congruence.
    - apply preserves_stream_and_wait; try congruence.
      intros f x. apply send_json_runs.
    - intros e _ x. apply send_json_runs. }
  apply (H (with_run (run_config image command work_dir) w0)).
Qed.

(** *** The workspace on every path *)

Lemma same_dirs_refl w : same_dirs w w.
Proof. split; reflexivity. Qed.

Lemma same_dirs_trans a b c : same_dirs a b -> same_dirs b c -> same_dirs a c.
Proof. intros [E1 E2] [E3 E4]. split; congruence. Qed.

Lemma send_json_same_dirs env f : preserves same_dirs (send_json env f).
Proof.
  intros w. unfold send_json. destruct (send_fault env (sends w)); split; reflexivity.
Qed.

Lemma containers_run_same_dirs env rc : preserves same_dirs (containers_run env rc).
Proof. intros w. rewrite containers_run_eq. split; reflexivity. Qed.

Lemma write_text_same_dirs env p c : preserves same_dirs (write_text env p c).
Proof.
  intros w. unfold write_text. destruct (write_fault env); split; reflexivity.
Qed.

Lemma guarded_body_same_dirs env config language code work_dir :
  preserves same_dirs
    (try_except (execute_body env config language code work_dir) is_Exception
                (fun e => send_json env (Error (exn_str e)))).
Proof.
  apply preserves_guarded_body.
  - apply same_dirs_refl.
  - apply same_dirs_trans.
  - apply send_json_same_dirs.
  - intros; apply containers_run_same_dirs.
  - apply write_text_same_dirs.
Qed.

Lemma not_in_filter_neq path l :
  ~ In path (filter (fun d => negb (String.eqb path d)) l).
Proof.
  intros H. apply filter_In in H. destruct H as [_ H].
  now rewrite String.eqb_refl in H.
Qed.

Lemma try_finally_rmtree_dirs {A : Type} env path (m : M A) w :
  rmtree_ok env = true ->
  ~ In path (dirs (snd (try_finally m (rmtree env path) w))).
Proof.
  intros Hok. unfold try_finally. destruct (m w) as [r w1].
  unfold rmtree. rewrite Hok. simpl. apply not_in_filter_neq.
Qed.

(** The removal is called exactly once, after everything else, whatever
    the body and the handler did. *)
Lemma execute_cleanup env code language config w :
  dict_get LANGUAGE_CONFIGS language = Some config ->
  existsb (String.eqb (work_dir_of env)) (dirs w) = false ->
  mkdir_fault env = None ->
  rmtree_calls (snd (execute env code language w))
  = (rmtree_calls w ++ [work_dir_of env])%list
  /\ (rmtree_ok env = true ->
      ~ In (work_dir_of env) (dirs (snd (execute env code language w)))).
Proof.
  intros Hl Hd Hm. rewrite (execute_allocated _ _ _ _ _ Hl Hd Hm). split.
  - match goal with
    | |- context [try_finally ?m (rmtree env ?p) ?w0] =>
        destruct (try_finally_rmtree env p m w0) as (_ & _ & _ & _ & _ & ->);
        destruct (guarded_body_same_dirs env config language code p w0)
          as [_ ->]
    end.
    reflexivity.
  - intros Hok. now apply try_finally_rmtree_dirs.
Qed.

(** What the [except Exception] handler of [execute] does with the outcome
    of the body. *)
Lemma execute_handler env code language config w :
  dict_get LANGUAGE_CONFIGS language = Some config ->
  existsb (String.eqb (work_dir_of env)) (dirs w) = false ->
  mkdir_fault env = None ->
  let body := execute_body env config language code (work_dir_of env)
                (with_dir (work_dir_of env) w) in
  (fst body = Ok tt ->
   fst (execute env code language w) = Ok tt
   /\ frames (snd (execute env code language w)) = frames (snd body))
  /\ (forall e, fst body = Raise e ->
      send_fault env (sends (snd body)) = None ->
      fst (execute env code language w) = Ok tt
      /\ frames (snd (execute env code language w))
         = (frames (snd body) ++ [Error (exn_str e)])%list).
Proof.
  intros Hl Hd Hm body. rewrite (execute_allocated _ _ _ _ _ Hl Hd Hm).
  match goal with
  | |- context [try_finally ?m (rmtree env ?p) ?w0] =>
      destruct (try_finally_rmtree env p m w0) as (-> & -> & _)
  end.
  unfold try_except. fold body. destruct body as [[[]|e] w1]; simpl.
  - split; [auto | discriminate].
  - split; [discriminate|]. intros e' [= <-] Hs.
    unfold send_json. rewrite Hs. simpl. auto.
Qed.

Lemma execute_no_crash env code language config w :
  dict_get LANGUAGE_CONFIGS language = Some config ->
  existsb (String.eqb (work_dir_of env)) (dirs w) = false ->
  mkdir_fault env = None ->
  accepting env ->
  fst (execute env code language w) = Ok tt.
Proof.
  intros Hl Hd Hm Ha.
  pose proof (execute_handler env code language config w Hl Hd Hm) as [H1 H2].
  cbv zeta in *.
  destruct (fst (execute_body _ _ _ _ _ _)) as [[]|e] eqn:E.
  - now apply H1.
  - now apply (H2 e).
Qed.

(** An [APIError] met while streaming or waiting is reported by
    [_run_container] itself, which then returns. *)
Lemma run_container_api_fault env image command work_dir status_msg w e :
  accepting env ->
  api_fault (container env (length (docker_runs w))) e ->
  let c := container env (length (docker_runs w)) in
  let r := _run_container env image command work_dir status_msg w in
  fst r = Ok tt
  /\ frames (snd r)
     = (frames w ++ Status status_msg :: fst (try_outcome c)
                ++ [docker_error_frame e])%list.
Proof.
  intros Ha (Hs & Ht & He) c r. unfold r.
  rewrite _run_container_accepting by assumption. cbv zeta. fold c.
  unfold phase_result, phase_frames. fold c in Hs, Ht. rewrite Hs, Ht, He.
  split; reflexivity.
Qed.

Lemma run_container_exit_code env image command work_dir status_msg w texts n :
  accepting env ->
  terminates_with (container env (length (docker_runs w))) texts n ->
  let r := _run_container env image command work_dir status_msg w in
  fst r = Ok tt
  /\ frames (snd r)
     = (frames w ++ Status status_msg :: map Output texts ++ exit_report n)%list.
Proof.
  intros Ha Ht r. unfold r.
  rewrite _run_container_accepting by assumption. cbv zeta.
  destruct (phase_terminates status_msg _ _ _ Ht) as [-> ->]. split; reflexivity.
Qed.

(** *** The Error frames of the backend on every path *)

Lemma frames_grow_refl P w : frames_grow P w w.
Proof. exists []. split; [now rewrite app_nil_r | constructor]. Qed.

Lemma frames_grow_trans P a b c :
  frames_grow P a b -> frames_grow P b c -> frames_grow P a c.
Proof.
  intros (l1 & E1 & F1) (l2 & E2 & F2). exists (l1 ++ l2)%list. split.
  - now rewrite E2, E1, app_assoc.
  - apply Forall_app; auto.
Qed.

Lemma same_frames_grow P w w' : frames w' = frames w -> frames_grow P w w'.
Proof. intros E. exists []. split; [now rewrite app_nil_r | constructor]. Qed.

Lemma send_json_grow (P : Frame -> Prop) env f :
  P f -> preserves (frames_grow P) (send_json env f).
Proof.
  intros Hf w. unfold send_json. destruct (send_fault env (sends w)); simpl.
  - now apply same_frames_grow.
  - exists [f]. split; [reflexivity | now constructor].
Qed.

Lemma backend_frame_not_error f : ftype f <> error -> backend_frame f.
Proof. intros H E. contradiction. Qed.

Lemma stream_logs_grow (P : Frame -> Prop) env items :
  (forall s, P (Output s)) -> preserves (frames_grow P) (stream_logs env items).
Proof.
  intros HP. induction items as [|line rest IH]; simpl.
  - apply preserves_ret, frames_grow_refl.
  - apply preserves_bind; [apply frames_grow_trans | | intros decoded].
    { apply preserves_lift, frames_grow_refl. }
    apply preserves_bind; [apply frames_grow_trans | | intros _].
    { apply send_json_grow, HP. }
    apply preserves_bind; [apply frames_grow_trans | | intros _; exact IH].
    apply preserves_ret, frames_grow_refl.
Qed.

Lemma run_container_backend_frames env image command work_dir status_msg :
  preserves (frames_grow backend_frame)
            (_run_container env image command work_dir status_msg).
Proof.
  unfold _run_container.
  apply preserves_bind; [apply frames_grow_trans | | intros _].
  { apply send_json_grow, backend_frame_not_error. discriminate. }
  apply preserves_bind; [apply frames_grow_trans | | intros c].
  { intros w. rewrite containers_run_eq. now apply same_frames_grow. }
  apply preserves_try_except; [apply frames_grow_trans | | ].
  - unfold stream_and_wait.
    apply preserves_bind; [apply frames_grow_trans | | intros _].
    { apply stream_logs_grow. intros s. apply backend_frame_not_error. discriminate. }
    apply preserves_bind; [apply frames_grow_trans | | intros _].
    { destruct (log_fault c);
        [apply preserves_raise | apply preserves_ret]; apply frames_grow_refl. }
    apply preserves_bind; [apply frames_grow_trans | | intros n].
    { apply preserves_lift, frames_grow_refl. }
    destruct (Z.eqb n 0) eqn:E; simpl.
    + apply preserves_ret, frames_grow_refl.
    + apply send_json_grow. intros _. left. exists n. split; [|reflexivity].
      intros ->. discriminate.
  - intros e He. apply send_json_grow. intros _. right. now exists e.
Qed.

Lemma docker_error_not_exit_code e n : docker_error_frame e <> exit_code_frame n.
Proof. unfold docker_error_frame, exit_code_frame. intros H. discriminate H. Qed.

(** *** The session does not depend on whether the removal succeeds *)

Lemma send_json_same_channel env f w1 w2 :
  same_channel w1 w2 ->
  fst (send_json env f w1) = fst (send_json env f w2)
  /\ same_channel (snd (send_json env f w1)) (snd (send_json env f w2)).
Proof.
  intros (E1 & E2 & E3 & E4 & E5). unfold send_json, same_channel. rewrite E2.
  destruct (send_fault env (sends w2)); simpl; rewrite ?E1; auto 10.
Qed.

Lemma close_same_channel env w1 w2 :
  same_channel w1 w2 ->
  fst (websocket_close env w1) = fst (websocket_close env w2)
  /\ same_channel (snd (websocket_close env w1)) (snd (websocket_close env w2)).
Proof.
  intros (E1 & E2 & E3 & E4 & E5). unfold websocket_close, same_channel.
  destruct (close_fault env); simpl; auto 10.
Qed.

Lemma guarded_body_rmtree_indep env b config language code work_dir :
  try_except (execute_body (with_rmtree_ok env b) config language code work_dir)
             is_Exception
             (fun e => send_json (with_rmtree_ok env b) (Error (exn_str e)))
  = try_except (execute_body env config language code work_dir) is_Exception
               (fun e => send_json env (Error (exn_str e))).
Proof. reflexivity. Qed.

Lemma execute_rmtree_indep env code language w :
  fst (execute (with_rmtree_ok env false) code language w)
  = fst (execute (with_rmtree_ok env true) code language w)
  /\ same_channel (snd (execute (with_rmtree_ok env false) code language w))
                  (snd (execute (with_rmtree_ok env true) code language w)).
Proof.
  unfold execute. destruct (dict_get LANGUAGE_CONFIGS language) as [config|].
  - cbv zeta.
    change (uuid4 (with_rmtree_ok env false)) with (uuid4 env).
    change (uuid4 (with_rmtree_ok env true)) with (uuid4 env).
    unfold bind.
    change (mkdir (with_rmtree_ok env false)) with (mkdir env).
    change (mkdir (with_rmtree_ok env true)) with (mkdir env).
    destruct (mkdir env _ w) as [[[]|e] w1].
    + rewrite !guarded_body_rmtree_indep.
      match goal with
      | |- context [try_finally ?m (rmtree (with_rmtree_ok env false) ?p) ?w0] =>
          pose proof (try_finally_rmtree (with_rmtree_ok env false) p m w0)
            as (F1 & F2 & F3 & F4 & F5 & F6);
          pose proof (try_finally_rmtree (with_rmtree_ok env true) p m w0)
            as (T1 & T2 & T3 & T4 & T5 & T6)
      end.
      unfold same_channel. rewrite F1, F2, F3, F4, F5, F6, T1, T2, T3, T4, T5, T6.
      auto 10.
    + unfold same_channel. auto 10.
  - unfold same_channel. auto 10.
Qed.

Lemma execute_code_rmtree_indep env w :
  fst (execute_code (with_rmtree_ok env false) w)
  = fst (execute_code (with_rmtree_ok env true) w)
  /\ same_channel (snd (execute_code (with_rmtree_ok env false) w))
                  (snd (execute_code (with_rmtree_ok env true) w)).
Proof.
  unfold execute_code, try_finally, try_except, bind, receive_json, lift.
  change (recv (with_rmtree_ok env false)) with (recv env).
  change (recv (with_rmtree_ok env true)) with (recv env).
  change (websocket_close (with_rmtree_ok env false)) with (websocket_close env).
  change (websocket_close (with_rmtree_ok env true)) with (websocket_close env).
  change (send_json (with_rmtree_ok env false)) with (send_json env).
  change (send_json (with_rmtree_ok env true)) with (send_json env).
  assert (Hfin : forall (r : Result unit) w1 w2, same_channel w1 w2 ->
            fst (match websocket_close env w1 with
                 | (Ok _, w3) => (r, w3) | (Raise e, w3) => (Raise e, w3) end)
            = fst (match websocket_close env w2 with
                   | (Ok _, w3) => (r, w3) | (Raise e, w3) => (Raise e, w3) end)
            /\ same_channel
                 (snd (match websocket_close env w1 with
                       | (Ok _, w3) => (r, w3) | (Raise e, w3) => (Raise e, w3) end))
                 (snd (match websocket_close env w2 with
                       | (Ok _, w3) => (r, w3) | (Raise e, w3) => (Raise e, w3) end))).
  { intros r w1 w2 Hs. destruct (close_same_channel env w1 w2 Hs) as [C1 C2].
    destruct (websocket_close env w1) as [[[]|e1] x1],
             (websocket_close env w2) as [[[]|e2] x2]; simpl in *;
      try discriminate; auto. }
  destruct (recv env) as [data|e].
  - destruct (execute_rmtree_indep env (dict_get_default data "code" "")
                (dict_get_default data "language" "python") w) as [E1 E2].
    destruct (execute (with_rmtree_ok env false) _ _ w) as [r1 w1],
             (execute (with_rmtree_ok env true) _ _ w) as [r2 w2].
    simpl in E1, E2. subst r2. destruct r1 as [[]|e].
    + now apply Hfin.
    + unfold is_Exception.
      destruct (send_json_same_channel env (Error ("Server error: " ++ exn_str e))
                  w1 w2 E2) as [S1 S2].
      destruct (send_json env _ w1) as [r1 x1], (send_json env _ w2) as [r2 x2].
      simpl in S1, S2. subst r2. now apply Hfin.
  - unfold is_Exception.
    destruct (send_json env _ w) as [r1 x1]. apply Hfin.
    unfold same_channel. auto 10.
Qed.

(** ** The session state machine *)

Lemma run_from_app s l1 l2 :
  run_from s (l1 ++ l2)
  = match run_from s l1 with
    | Some s' => run_from s' l2
    | None => None
    end.
Proof.
  revert s. induction l1 as [|f l1 IH]; intros s; simpl; [reflexivity|].
  destruct (step s f); [apply IH | reflexivity].
Qed.

Lemma step_complete_Done s s' :
  step s (Status "Execution complete") = Some s' -> s' = Done.
Proof. destruct s; simpl; intros [= <-]; reflexivity. Qed.

Lemma step_running_Running s s' :
  step s (Status "Running...") = Some s' -> s' = Running.
Proof. destruct s; simpl; intros [= <-]; reflexivity. Qed.

Lemma run_from_Done l s' : run_from Done l = Some s' -> l = [].
Proof. destruct l as [|f l]; [reflexivity|]. simpl. destruct (ftype f); discriminate. Qed.

Lemma step_later s f s' :
  step s f = Some s' -> running_or_later s = true -> running_or_later s' = true.
Proof.
  destruct s; simpl; try discriminate; destruct (ftype f); try discriminate;
    try (intros [= <-]; reflexivity);
    destruct (String.eqb _ _); try discriminate; intros [= <-]; reflexivity.
Qed.

Lemma run_from_later l s s' :
  run_from s l = Some s' -> running_or_later s = true -> running_or_later s' = true.
Proof.
  revert s. induction l as [|f l IH]; intros s; simpl.
  - now intros [= <-].
  - destruct (step s f) as [s1|] eqn:E; [|discriminate].
    intros H Hs. apply (IH s1 H). eapply step_later; eassumption.
Qed.

Lemma run_from_after_running l s s' :
  run_from s l = Some s' -> In (Status "Running...") l ->
  running_or_later s' = true.
Proof.
  revert s. induction l as [|f l IH]; intros s; simpl; [intros _ []|].
  destruct (step s f) as [s1|] eqn:E; [|discriminate].
  intros H [->|Hin].
  - apply step_running_Running in E. subst s1.
    eapply run_from_later; [eassumption | reflexivity].
  - eapply IH; eassumption.
Qed.

Lemma step_into_compile s f s' :
  step s f = Some s' -> in_compile s = false -> in_compile s' = true ->
  f = Status "Compiling...".
Proof.
  destruct f as [t d]. unfold step. simpl.
  destruct s, t; simpl; try discriminate;
    try (intros [= <-]; discriminate);
    try (destruct (String.eqb d _) eqn:E; try discriminate;
         intros [= <-]; discriminate).
  destruct (String.eqb d "Compiling...") eqn:E.
  - apply String.eqb_eq in E. now subst d.
  - destruct (String.eqb d "Running..."); try discriminate.
    intros [= <-]. discriminate.
Qed.

Lemma run_from_no_compile l s s' :
  run_from s l = Some s' -> in_compile s = false ->
  ~ In (Status "Compiling...") l -> in_compile s' = false.
Proof.
  revert s. induction l as [|f l IH]; intros s; simpl.
  - now intros [= <-].
  - destruct (step s f) as [s1|] eqn:E; [|discriminate].
    intros H Hs Hn. apply (IH s1 H).
    + destruct (in_compile s1) eqn:E1; [|reflexivity].
      exfalso. apply Hn. left.
      apply (step_into_compile s f s1); assumption.
    + intros Hin. apply Hn. now right.
Qed.

(** After an Error frame sent outside the compile phase no Output frame
    is accepted any more. *)
Lemma step_error_closes s f s' :
  step s f = Some s' -> ftype f = error -> in_compile s = false ->
  s' = RunReported \/ s' = Failed.
Proof.
  intros H E. unfold step in H. rewrite E in H.
  destruct s; simpl; try discriminate; inversion H; auto.
Qed.

Lemma run_from_no_output l s s' :
  run_from s l = Some s' -> s = RunReported \/ s = Failed \/ s = Done ->
  Forall (fun g => ftype g <> output) l.
Proof.
  revert s. induction l as [|f l IH]; intros s; simpl; [constructor|].
  destruct (step s f) as [s1|] eqn:E; [|discriminate].
  intros H Hs. unfold step in E.
  destruct Hs as [-> | [-> | ->]]; destruct (ftype f) eqn:Ef; try discriminate.
  - destruct (String.eqb _ _); [|discriminate]. injection E as <-.
    constructor; [congruence|]. eapply IH; eauto.
  - injection E as <-. constructor; [congruence|]. eapply IH; eauto.
Qed.

Lemma run_from_no_compiling_status l s s' :
  run_from s l = Some s' -> running_or_later s = true ->
  ~ In (Status "Compiling...") l.
Proof.
  revert s. induction l as [|f l IH]; intros s; simpl; [auto|].
  destruct (step s f) as [s1|] eqn:E; [|discriminate].
  intros H Hs [-> | Hin].
  - destruct s; simpl in *; discriminate.
  - apply (IH s1 H); [eapply step_later; eassumption | assumption].
Qed.

(** What a valid path forbids. *)
Lemma valid_path_complete_last fs l1 l2 :
  valid_path fs -> fs = (l1 ++ Status "Execution complete" :: l2)%list -> l2 = [].
Proof.
  intros [s H] ->. rewrite run_from_app in H.
  destruct (run_from Created l1) as [s1|]; [|discriminate]. simpl in H.
  destruct (step s1 (Status "Execution complete")) as [s2|] eqn:E; [|discriminate].
  apply step_complete_Done in E. subst s2. eapply run_from_Done; eassumption.
Qed.

Lemma valid_path_no_output_after_error fs l1 f l2 :
  valid_path fs -> fs = (l1 ++ f :: l2)%list -> ftype f = error ->
  In (Status "Running...") l1 \/ ~ In (Status "Compiling...") l1 ->
  Forall (fun g => ftype g <> output) l2.
Proof.
  intros [s H] -> Ef Hl. rewrite run_from_app in H.
  destruct (run_from Created l1) as [s1|] eqn:E1; [|discriminate]. simpl in H.
  destruct (step s1 f) as [s2|] eqn:E2; [|discriminate].
  assert (Hc : in_compile s1 = false).
  { destruct Hl as [Hr|Hn].
    - pose proof (run_from_after_running _ _ _ E1 Hr). now destruct s1.
    - eapply run_from_no_compile; eauto. }
  destruct (step_error_closes _ _ _ E2 Ef Hc) as [-> | ->];
    eapply run_from_no_output; eauto.
Qed.

Lemma valid_path_no_compiling_after_running fs l1 l2 :
  valid_path fs -> fs = (l1 ++ Status "Running..." :: l2)%list ->
  ~ In (Status "Compiling...") l2.
Proof.
  intros [s H] ->. rewrite run_from_app in H.
  destruct (run_from Created l1) as [s1|]; [|discriminate]. simpl in H.
  destruct (step s1 (Status "Running...")) as [s2|] eqn:E; [|discriminate].
  apply step_running_Running in E. subst s2.
  eapply run_from_no_compiling_status; [eassumption | reflexivity].
Qed.

(** *** The program follows the machine, on every path *)

Lemma traces_weaken {A : Type} s (m : M A) (Q Q' : Result A -> State -> Prop) :
  traces s m Q -> (forall r s', Q r s' -> Q' r s') -> traces s m Q'.
Proof.
  intros H HQ w. destruct (H w) as (l & s' & E & R & q).
  exists l, s'. auto.
Qed.

Lemma traces_silent {A : Type} s (m : M A) (Q : Result A -> State -> Prop) :
  (forall w, frames (snd (m w)) = frames w) -> (forall w, Q (fst (m w)) s) ->
  traces s m Q.
Proof.
  intros Hf HQ w. exists [], s. rewrite app_nil_r. auto.
Qed.

Lemma traces_bind {A B : Type} s (m : M A) (k : A -> M B) Q Q' :
  traces s m Q ->
  (forall a s', Q (Ok a) s' -> traces s' (k a) Q') ->
  (forall e s', Q (Raise e) s' -> Q' (Raise e) s') ->
  traces s (bind m k) Q'.
Proof.
  intros Hm Hk He w. unfold bind. destruct (Hm w) as (l & s1 & E & R & q).
  destruct (m w) as [[a|e] w1]; simpl in *.
  - destruct (Hk a s1 q w1) as (l2 & s2 & E2 & R2 & q2).
    exists (l ++ l2)%list, s2. rewrite run_from_app, R. repeat split; auto.
    now rewrite E2, E, app_assoc.
  - exists l, s1. auto.
Qed.

Lemma traces_try_except {A : Type} s (m : M A) catches h Q Q' :
  traces s m Q ->
  (forall a s', Q (Ok a) s' -> Q' (Ok a) s') ->
  (forall e s', Q (Raise e) s' -> catches e = true -> traces s' (h e) Q') ->
  (forall e s', Q (Raise e) s' -> catches e = false -> Q' (Raise e) s') ->
  traces s (try_except m catches h) Q'.
Proof.
  intros Hm Hok Hc Hp w. unfold try_except.
  destruct (Hm w) as (l & s1 & E & R & q).
  destruct (m w) as [[a|e] w1]; simpl in *.
  - exists l, s1. auto.
  - destruct (catches e) eqn:C.
    + destruct (Hc e s1 q C w1) as (l2 & s2 & E2 & R2 & q2).
      exists (l ++ l2)%list, s2. rewrite run_from_app, R. repeat split; auto.
      now rewrite E2, E, app_assoc.
    + exists l, s1. simpl. auto.
Qed.

Lemma traces_send env s f s1 (Q : Result unit -> State -> Prop) :
  step s f = Some s1 -> Q (Ok tt) s1 -> (forall e, Q (Raise e) s) ->
  traces s (send_json env f) Q.
Proof.
  intros Hs Hok He w. unfold send_json.
  destruct (send_fault env (sends w)) as [e|]; simpl.
  - exists [], s. rewrite app_nil_r. auto.
  - exists [f], s1. simpl. rewrite Hs. auto.
Qed.

Lemma step_output_phase p d : is_phase p -> step p (Output d) = Some p.
Proof. intros [-> | ->]; reflexivity. Qed.

Lemma step_error_phase p d : is_phase p -> step p (Error d) = Some (reported p).
Proof. intros [-> | ->]; reflexivity. Qed.

Lemma step_error_open s d : open s = true -> exists s2, step s (Error d) = Some s2.
Proof. destruct s; simpl; try discriminate; eauto. Qed.

Lemma open_phase p : is_phase p -> open p = true /\ open (reported p) = true.
Proof. intros [-> | ->]; auto. Qed.

Lemma traces_stream_logs env p items :
  is_phase p -> traces p (stream_logs env items) (fun _ s' => s' = p).
Proof.
  intros Hp. induction items as [|line rest IH]; simpl.
  - apply traces_silent; auto.
  - apply traces_bind with (Q := fun _ s' => s' = p).
    + apply traces_silent; auto.
    + intros decoded s' ->.
      apply traces_bind with (Q := fun _ s' => s' = p); auto.
      * apply traces_send with (s1 := p); auto. now apply step_output_phase.
      * intros _ s' ->. apply traces_bind with (Q := fun _ s' => s' = p); auto.
        -- apply traces_silent; auto.
        -- now intros _ s' ->.
    + auto.
Qed.

Lemma traces_stream_and_wait env p c :
  is_phase p ->
  traces p (stream_and_wait env c)
         (fun r s' => s' = p \/ (s' = reported p /\ r = Ok tt)).
Proof.
  intros Hp. unfold stream_and_wait.
  apply traces_bind with (Q := fun _ s' => s' = p); auto.
  { now apply traces_stream_logs. }
  intros _ s' ->. apply traces_bind with (Q := fun _ s' => s' = p); auto.
  { destruct (log_fault c); apply traces_silent; auto. }
  intros _ s' ->. apply traces_bind with (Q := fun _ s' => s' = p); auto.
  { apply traces_silent; auto. }
  intros n s' ->. destruct (negb (Z.eqb n 0)).
  - apply traces_send with (s1 := reported p); auto.
    now apply step_error_phase.
  - apply traces_silent; auto.
Qed.

Lemma traces_run_container env s0 p image command work_dir status_msg :
  step s0 (Status status_msg) = Some p -> is_phase p ->
  traces s0 (_run_container env image command work_dir status_msg)
         (fun r s' => match r with
                      | Ok _ => s' = p \/ s' = reported p
                      | Raise _ => s' = s0 \/ s' = p
                      end).
Proof.
  intros Hs Hp. unfold _run_container.
  apply traces_bind with (Q := fun r s' => match r with
                                           | Ok _ => s' = p
                                           | Raise _ => s' = s0
                                           end); auto.
  { apply traces_send with (s1 := p); auto. }
  intros _ s' ->.
  apply traces_bind with (Q := fun _ s' => s' = p); auto.
  { apply traces_silent; auto. intros w. now rewrite containers_run_eq. }
  intros c s' ->.
  apply traces_try_except
    with (Q := fun r s' => s' = p \/ (s' = reported p /\ r = Ok tt)).
  - now apply traces_stream_and_wait.
  - intros [] s' [-> | [-> _]]; auto.
  - intros e s' [-> | [_ [=]]] _.
    apply traces_send with (s1 := reported p); auto.
    now apply step_error_phase.
  - intros e s' [-> | [_ [=]]] _. auto.
Qed.

Lemma traces_execute_body env config language code work_dir :
  traces Created (execute_body env config language code work_dir)
         (fun r s' => match r with
                      | Ok _ => s' = Done
                      | Raise _ => open s' = true
                      end).
Proof.
  unfold execute_body.
  apply traces_bind with (Q := fun _ s' => s' = Created).
  { apply traces_silent; auto. intros w. unfold write_text.
    now destruct (write_fault env). }
  2: { now intros e s' ->. }
  intros _ s' ->.
  apply traces_bind with (Q := fun r s' => match r with
                                           | Ok _ => s' = Started
                                           | Raise _ => s' = Created
                                           end).
  { apply traces_send with (s1 := Started); auto. }
  2: { now intros e s' ->. }
  intros _ s' ->.
  apply traces_bind
    with (Q := fun r s' => match r with
                           | Ok _ => s' = Started \/ s' = Compiling
                                     \/ s' = CompileReported
                           | Raise _ => s' = Started \/ s' = Compiling
                           end).
  { destruct (truthy (compile_cmd config)).
    - apply traces_bind with (Q := fun _ s' => s' = Started); auto.
      + apply traces_silent; auto.
      + intros cmd s' ->.
        eapply traces_weaken.
        * apply traces_run_container with (p := Compiling);
            [reflexivity | now left].
        * intros [[]|e] s'; simpl; tauto.
    - apply traces_silent; [reflexivity | intros w; simpl; auto]. }
  2: { intros e s' [-> | ->]; reflexivity. }
  intros _ s1 H1.
  apply traces_bind with (Q := fun _ s' => s' = s1).
  { apply traces_silent; auto. }
  2: { intros e s' ->. destruct H1 as [-> | [-> | ->]]; reflexivity. }
  intros cmd s' ->.
  apply traces_bind
    with (Q := fun r s' => match r with
                           | Ok _ => s' = Running \/ s' = RunReported
                           | Raise _ => s' = s1 \/ s' = Running
                           end).
  { apply traces_run_container with (p := Running); [|now right].
    destruct H1 as [-> | [-> | ->]]; reflexivity. }
  2: { intros e s' [-> | ->]; [|reflexivity].
       destruct H1 as [-> | [-> | ->]]; reflexivity. }
  intros _ s' H2.
  apply traces_send with (s1 := Done); auto.
  - destruct H2 as [-> | ->]; reflexivity.
  - intros _. destruct H2 as [-> | ->]; reflexivity.
Qed.

Lemma traces_handler env s d :
  open s = true ->
  traces s (send_json env (Error d))
         (fun r s' => match r with
                      | Ok _ => True
                      | Raise _ => open s' = true
                      end).
Proof.
  intros Ho. destruct (step_error_open s d Ho) as [s2 Hs].
  now apply traces_send with (s1 := s2).
Qed.

Lemma traces_execute env code language :
  traces Created (execute env code language)
         (fun r s' => match r with
                      | Ok _ => True
                      | Raise _ => open s' = true
                      end).
Proof.
  unfold execute. destruct (dict_get LANGUAGE_CONFIGS language) as [config|].
  - cbv zeta. apply traces_bind with (Q := fun _ s' => s' = Created).
    + apply traces_silent; auto. intros w. unfold mkdir.
      destruct (existsb _ _); [reflexivity|]. now destruct (mkdir_fault env).
    + intros _ s' ->. intros w.
      match goal with
      | |- context [try_finally ?m (rmtree env ?p) w] =>
          destruct (try_finally_rmtree env p m w) as (-> & -> & _);
          revert w; change (traces Created m
            (fun r s' => match r with
                         | Ok _ => True
                         | Raise _ => open s' = true
                         end))
      end.
      eapply traces_try_except.
      * apply traces_execute_body.
      * auto.
      * intros e s' Ho _. simpl in Ho. now apply traces_handler.
      * discriminate.
    + now intros e s' ->.
  - now apply traces_handler.
Qed.

Lemma traces_execute_code env :
  traces Created (execute_code env) (fun _ _ => True).
Proof.
  unfold execute_code. intros w. unfold try_finally.
  assert (H : traces Created
                (try_except
                   (data <- receive_json env ;;
                    execute env (dict_get_default data "code" "")
                            (dict_get_default data "language" "python"))
                   is_Exception
                   (fun e => send_json env (Error ("Server error: " ++ exn_str e))))
                (fun _ _ => True)).
  { eapply traces_try_except.
    - apply traces_bind with (Q := fun _ s' => s' = Created).
      + apply traces_silent; auto.
      + intros data s' ->. apply traces_execute.
      + now intros e s' ->.
    - auto.
    - intros e s' Ho _. simpl in Ho. eapply traces_weaken.
      + apply (traces_handler env s' ("Server error: " ++ exn_str e) Ho).
      + auto.
    - discriminate. }
  destruct (H w) as (l & s' & E & R & _).
  destruct (try_except _ _ _ w) as [r w1]. simpl in E.
  exists l, s'. repeat split; auto.
  unfold websocket_close. destruct (close_fault env); simpl; assumption.
Qed.

Lemma skipn_length_app {X : Type} (l1 l2 : list X) : skipn (length l1) (l1 ++ l2) = l2.
Proof. induction l1 as [|x l1 IH]; simpl; auto. Qed.

Lemma session_frames_valid env w :
  frames (snd (execute_code env w)) = (frames w ++ session_frames env w)%list
  /\ valid_path (session_frames env w).
Proof.
  destruct (traces_execute_code env w) as (l & s' & E & R & _).
  unfold session_frames. rewrite E, skipn_length_app. split; [reflexivity|].
  now exists s'.
Qed.

(** * The properties of the specification *)

(** C5: every backend invocation applies the same resource policy,
    whatever the language and the session.  The arguments handed to
    [containers.run] have the network disabled, a memory limit of "256m",
    a CPU quota of 50000 per period of 100000 (half a core), the workspace
    bound read-write at [/workspace], which is the working directory, the
    command wrapped in [sh -c '...'] and automatic removal; one invocation
    makes at most this one call, and every call a session makes passes the
    policy test. *)
Theorem C5_fixed_resource_policy :
  (forall image command work_dir,
      let rc := run_config image command work_dir in
      rc_network_mode rc = "none"
      /\ rc_mem_limit rc = "256m"
      /\ rc_cpu_period rc = 100000%Z /\ rc_cpu_quota rc = 50000%Z
      /\ (2 * rc_cpu_quota rc = rc_cpu_period rc)%Z
      /\ rc_volumes rc = [(work_dir, ("/workspace", "rw"))]
      /\ rc_working_dir rc = "/workspace"
      /\ rc_command rc = "sh -c '" ++ command ++ "'"
      /\ rc_remove rc = true
      /\ policy_ok rc = true)
  /\ (forall env image command work_dir status_msg w,
         let w' := snd (_run_container env image command work_dir status_msg w) in
         docker_runs w' = docker_runs w
         \/ docker_runs w'
            = (docker_runs w ++ [run_config image command work_dir])%list)
  /\ (forall env w, runs_under_policy w (snd (execute_code env w))).
Proof.
  split; [|split].
  - intros image command work_dir rc. unfold rc.
    repeat (split; [reflexivity|]). apply policy_ok_run_config.
  - intros. apply run_container_runs.
  - intros env w. apply execute_code_policy.
Qed.

(** C2: a request whose language is not in the registry touches neither
    the filesystem nor Docker, emits no Status and no Output frame and at
    most one Error frame; when the channel accepts the frame the session
    emits exactly the one Error frame "Unsupported language: ..." and the
    channel is then closed. *)
Theorem C2_unsupported_language env data w :
  recv env = Ok data ->
  dict_get LANGUAGE_CONFIGS (dict_get_default data "language" "python") = None ->
  let language := dict_get_default data "language" "python" in
  let w' := snd (execute_code env w) in
  same_resources w w'
  /\ (exists errs, frames w' = (frames w ++ errs)%list
                   /\ length errs <= 1
                   /\ Forall (fun f => ftype f = error) errs)
  /\ (send_fault env (sends w) = None ->
      frames w' = (frames w ++ [Error ("Unsupported language: " ++ language)])%list)
  /\ (close_fault env = None -> closed w' = true)
  /\ (send_fault env (sends w) = None -> close_fault env = None ->
      fst (execute_code env w) = Ok tt).
Proof.
  intros Hr Hl language w'. subst w'.
  unfold execute_code, try_finally, try_except, bind, receive_json, lift.
  rewrite Hr. unfold execute. rewrite Hl. fold language.
  unfold is_Exception, send_json, websocket_close.
  destruct (send_fault env (sends w)) as [e1|]; simpl.
  - destruct (send_fault env (S (sends w))) as [e2|],
             (close_fault env) as [e3|]; simpl;
      (split; [repeat split|]);
      (split; [first [ exists []; rewrite app_nil_r; simpl;
                       repeat split; auto; fail
                     | eexists [_]; simpl; repeat split; eauto ] |]);
      repeat split; try discriminate; auto.
  - destruct (close_fault env) as [e3|]; simpl;
      (split; [repeat split|]);
      (split; [eexists [_]; simpl; repeat split; eauto |]);
      repeat split; try discriminate; auto.
Qed.

(** C9: an initiation message without a "code" field is executed as if it
    carried the empty string, one without a "language" field as if it
    carried "python"; with both missing the endpoint runs
    [execute("", "python")], and in a healthy session whose unit runs to
    its end the frames are those of a Python run, with no Error frame about
    the message. *)
Theorem C9_missing_fields_default env data w :
  (dict_get data "code" = None ->
   execute_code (with_recv env (Ok data)) w
   = execute_code (with_recv env (Ok (("code", "") :: data))) w)
  /\ (dict_get data "language" = None ->
      execute_code (with_recv env (Ok data)) w
      = execute_code (with_recv env (Ok (("language", "python") :: data))) w)
  /\ (recv env = Ok data ->
      dict_get data "code" = None -> dict_get data "language" = None ->
      execute_code env w
      = try_finally
          (try_except (execute env "" "python") is_Exception
             (fun e => send_json env (Error ("Server error: " ++ exn_str e))))
          (websocket_close env) w)
  /\ (recv env = Ok data ->
      dict_get data "code" = None -> dict_get data "language" = None ->
      healthy env w ->
      forall texts,
        terminates_with (container env (length (docker_runs w))) texts 0 ->
        frames (snd (execute_code env w))
        = (frames w ++ Status "Starting execution..." :: Status "Running..."
             :: map Output texts ++ [Status "Execution complete"])%list).
Proof.
  assert (H3 : recv env = Ok data ->
               dict_get data "code" = None -> dict_get data "language" = None ->
               execute_code env w
               = try_finally
                   (try_except (execute env "" "python") is_Exception
                      (fun e => send_json env
                                  (Error ("Server error: " ++ exn_str e))))
                   (websocket_close env) w).
  { intros Hr Hc Hl.
    unfold execute_code, try_finally, try_except, bind, receive_json, lift.
    rewrite Hr. unfold dict_get_default. now rewrite Hc, Hl. }
  split; [|split; [|split]].
  - intros Hc.
    unfold execute_code, try_finally, try_except, bind, receive_json, lift.
    simpl recv. unfold dict_get_default. simpl dict_get. now rewrite Hc.
  - intros Hl.
    unfold execute_code, try_finally, try_except, bind, receive_json, lift.
    simpl recv. unfold dict_get_default. simpl dict_get. now rewrite Hl.
  - exact H3.
  - intros Hr Hc Hl Hh texts Ht. rewrite (H3 Hr Hc Hl).
    assert (Hlk : dict_get LANGUAGE_CONFIGS "python"
                  = Some (mkConfig "python:3.11-slim" "py" None "python {filename}"))
      by reflexivity.
    destruct (execute_run_terminates env "" "python" _ w texts 0%Z Hlk Hh)
      as [E1 E2]; [discriminate | exact Ht |].
    unfold try_finally, try_except.
    destruct (execute env "" "python" w) as [r w1]. simpl in E1, E2. subst r.
    unfold websocket_close. destruct (close_fault env); simpl; rewrite E2;
      reflexivity.
Qed.



(** ** Output text *)

Lemma filter_output_map texts :
  filter is_output (map Output texts) = map Output texts.
Proof. induction texts as [|t ts IH]; simpl; [reflexivity | now rewrite IH]. Qed.

Lemma map_fdata_Output texts : map fdata (map Output texts) = texts.
Proof. induction texts as [|t ts IH]; simpl; [reflexivity | now rewrite IH]. Qed.

Lemma output_text_streamed texts :
  output_text (map Output texts) = String.concat "" texts.
Proof. unfold output_text. now rewrite filter_output_map, map_fdata_Output. Qed.

Lemma output_text_plain_session texts :
  output_text (Status "Starting execution..." :: Status "Running..."
                 :: map Output texts ++ [Status "Execution complete"])
  = String.concat "" texts.
Proof.
  unfold output_text. simpl. rewrite filter_app. simpl.
  now rewrite app_nil_r, filter_output_map, map_fdata_Output.
Qed.

Lemma no_error_streamed texts : Forall (fun f => ftype f <> error) (map Output texts).
Proof. induction texts; simpl; constructor; [discriminate | assumption]. Qed.

(** C1, as the code has it: in a healthy session whose run unit
    terminates, exit code 0 gives the frames of the run phase (Status
    "Running...", the Output frames) followed by Status "Execution
    complete", with no Error frame in the run phase; a nonzero exit code
    [n] gives the same frames followed by exactly one Error frame "Process
    exited with code n", no Output frame after it, and then Status
    "Execution complete" as well.  The completion Status is sent in both
    cases. *)
Theorem C1_run_exit_code_report env code language config w texts n :
  dict_get LANGUAGE_CONFIGS language = Some config ->
  healthy env w -> compile_returns env config w ->
  terminates_with (run_unit env config w) texts n ->
  let before_run :=
    (frames w ++ Status "Starting execution..." :: compile_frames env config w)%list in
  fst (execute env code language w) = Ok tt
  /\ (n = 0%Z ->
      frames (snd (execute env code language w))
      = (before_run ++ Status "Running..." :: map Output texts
           ++ [Status "Execution complete"])%list)
  /\ (n <> 0%Z ->
      frames (snd (execute env code language w))
      = (before_run ++ Status "Running..." :: map Output texts
           ++ [Error ("Process exited with code " ++ str_int n);
               Status "Execution complete"])%list).
Proof.
  intros Hl Hh Hc Ht before_run.
  destruct (execute_run_terminates env code language config w texts n Hl Hh Hc Ht)
    as [E1 E2].
  split; [exact E1|]. unfold before_run. rewrite E2. unfold exit_report. split.
  - intros ->. simpl. now rewrite <- app_assoc.
  - intros Hn. destruct (Z.eqb n 0) eqn:E; [apply Z.eqb_eq in E; contradiction|].
    now rewrite <- app_assoc.
Qed.

Lemma C1_run_exit_code_report_witness :
  healthy env_exit3 initial_world
  /\ frames (snd (execute env_exit3 "import sys; sys.exit(3)" "python" initial_world))
     = [Status "Starting execution..."; Status "Running...";
        Output "Traceback (most recent call last):";
        Error "Process exited with code 3"; Status "Execution complete"].
Proof.
  assert (Hh : healthy env_exit3 initial_world).
  { split; [intros n; reflexivity | repeat split; reflexivity]. }
  split; [exact Hh|].
  refine (proj2 (proj2 (C1_run_exit_code_report env_exit3 _ "python" python_profile
                          initial_world ["Traceback (most recent call last):"] 3%Z
                          eq_refl Hh _ _)) _).
  - intros H; discriminate H.
  - repeat split; reflexivity.
  - discriminate.
Defined.

(** C1 as stated fails: a Python program that exits with code 3 gets the
    Error frame and, after it, the Status "Execution complete" frame; the
    two outcomes are not exclusive. *)
Lemma C1_counterexample :
  let fs := frames (snd (execute_code env_exit3 initial_world)) in
  terminates_with (run_unit env_exit3 python_profile initial_world)
                  ["Traceback (most recent call last):"] 3
  /\ fs = [Status "Starting execution..."; Status "Running...";
           Output "Traceback (most recent call last):";
           Error "Process exited with code 3"; Status "Execution complete"]
  /\ ~ (In (Error "Process exited with code 3") fs ->
        ~ In (Status "Execution complete") fs).
Proof.
  repeat split; try reflexivity.
  intros H. apply H; vm_compute; auto 10.
Qed.




Lemma try_outcome_raise c e :
  snd (try_outcome c) = Raise e ->
  exists ts, fst (try_outcome c) = map Output ts.
Proof.
  unfold try_outcome.
  destruct (streamed (log_items c)) as [ts [e1|]]; simpl; eauto.
  destruct (log_fault c); simpl; eauto.
  destruct (wait_result c) as [z|e2]; simpl; eauto.
  destruct (Z.eqb z 0); simpl; discriminate.
Qed.

(** C3: in a healthy session whose profile declares a compile command,
    when the compile unit terminates with a nonzero exit code [n] the
    Error frame "Process exited with code n" is sent, and the run phase is
    started all the same: Status "Running..." is the next frame and the
    second [containers.run] call carries the run command. *)
Theorem C3_compile_failure_does_not_abort env code language config w texts n :
  dict_get LANGUAGE_CONFIGS language = Some config ->
  truthy (compile_cmd config) = true ->
  healthy env w ->
  terminates_with (compile_unit env w) texts n -> n <> 0%Z ->
  exists ccmd rcmd rest,
    compile_command config = Ok ccmd
    /\ run_command config language = Ok rcmd
    /\ frames (snd (execute env code language w))
       = (frames w ++ Status "Starting execution..." :: Status "Compiling..."
            :: map Output texts
            ++ Error ("Process exited with code " ++ str_int n)
            :: Status "Running..." :: rest)%list
    /\ docker_runs (snd (execute env code language w))
       = (docker_runs w
            ++ [run_config (image config) ccmd (work_dir_of env);
                run_config (image config) rcmd (work_dir_of env)])%list.
Proof.
  intros Hl Ht (Ha & Hd & Hm & Hw) Hc Hn.
  destruct (registry_commands _ _ Hl) as [[rcmd Hr] Hcc].
  destruct (Hcc Ht) as [ccmd Hcmd].
  exists ccmd, rcmd.
  rewrite (execute_allocated _ _ _ _ _ Hl Hd Hm).
  match goal with
  | |- context [try_finally ?m (rmtree env ?p) ?w0] =>
      destruct (try_finally_rmtree env p m w0) as (_ & -> & _ & _ & -> & _)
  end.
  unfold try_except.
  rewrite (execute_body_compiled _ _ _ _ _ _ ccmd rcmd) by assumption.
  cbv zeta. change (docker_runs (with_dir _ w)) with (docker_runs w).
  unfold compile_unit in Hc.
  destruct (phase_terminates "Compiling..." _ _ _ Hc) as [-> ->].
  unfold exit_report. destruct (Z.eqb n 0) eqn:E;
    [apply Z.eqb_eq in E; contradiction|].
  set (c1 := container env (S (length (docker_runs w)))).
  assert (Hp : phase_frames "Running..." c1
               = Status "Running..." :: tl (phase_frames "Running..." c1))
    by reflexivity.
  destruct (phase_result c1) as [[]|e].
  - eexists. split; [exact Hcmd|]. split; [exact Hr|]. simpl.
    rewrite Hp. split.
    + rewrite <- !app_assoc. simpl. rewrite <- !app_assoc. simpl. reflexivity.
    + now rewrite <- app_assoc.
  - unfold is_Exception. rewrite send_json_accepting by assumption.
    eexists. split; [exact Hcmd|]. split; [exact Hr|]. simpl.
    rewrite Hp. split.
    + rewrite <- !app_assoc. simpl. rewrite <- !app_assoc. simpl. reflexivity.
    + now rewrite <- app_assoc.
Qed.

Lemma C3_compile_failure_does_not_abort_witness :
  healthy env_compile_error initial_world
  /\ exists ccmd rcmd rest,
      compile_command cpp_profile = Ok ccmd
      /\ run_command cpp_profile "cpp" = Ok rcmd
      /\ frames (snd (execute env_compile_error "int" "cpp" initial_world))
         = (Status "Starting execution..." :: Status "Compiling..."
              :: [Output "main.cpp:1:1: error: expected unqualified-id"]
              ++ Error ("Process exited with code " ++ str_int 1)
              :: Status "Running..." :: rest)%list
      /\ docker_runs (snd (execute env_compile_error "int" "cpp" initial_world))
         = [run_config (image cpp_profile) ccmd (work_dir_of env_compile_error);
            run_config (image cpp_profile) rcmd (work_dir_of env_compile_error)].
Proof.
  assert (Hh : healthy env_compile_error initial_world).
  { split; [intros n; reflexivity | repeat split; reflexivity]. }
  split; [exact Hh|].
  refine (C3_compile_failure_does_not_abort env_compile_error "int" "cpp"
            cpp_profile initial_world
            ["main.cpp:1:1: error: expected unqualified-id"] 1%Z
            eq_refl eq_refl Hh _ _).
  - repeat split; reflexivity.
  - discriminate.
Defined.

(** The frames of a healthy session whose run phase ends in an exception
    that leaves [_run_container]. *)
Lemma execute_run_fault env code language config w e :
  dict_get LANGUAGE_CONFIGS language = Some config ->
  healthy env w -> compile_returns env config w ->
  phase_result (run_unit env config w) = Raise e ->
  fst (execute env code language w) = Ok tt
  /\ frames (snd (execute env code language w))
     = (frames w ++ Status "Starting execution..." :: compile_frames env config w
          ++ phase_frames "Running..." (run_unit env config w)
          ++ [Error (exn_str e)])%list.
Proof.
  intros Hl (Ha & Hd & Hm & Hw) Hc Hp.
  destruct (registry_commands _ _ Hl) as [[rcmd Hr] Hcc].
  rewrite (execute_allocated _ _ _ _ _ Hl Hd Hm).
  match goal with
  | |- context [try_finally ?m (rmtree env ?p) ?w0] =>
      destruct (try_finally_rmtree env p m w0) as (-> & -> & _)
  end.
  unfold try_except, compile_frames.
  unfold compile_returns in Hc. unfold run_unit in Hp |- *.
  unfold compile_unit in *.
  destruct (truthy (compile_cmd config)) eqn:Et.
  - destruct (Hcc eq_refl) as [ccmd Hcmd].
    rewrite (execute_body_compiled _ _ _ _ _ _ ccmd rcmd) by assumption.
    cbv zeta. change (docker_runs (with_dir _ w)) with (docker_runs w).
    rewrite (Hc eq_refl), Hp. unfold is_Exception.
    rewrite send_json_accepting by assumption.
    split; [reflexivity|]. simpl.
    rewrite <- ?app_assoc. simpl. rewrite <- ?app_assoc. reflexivity.
  - rewrite (execute_body_plain _ _ _ _ _ _ rcmd) by assumption.
    cbv zeta. change (docker_runs (with_dir _ w)) with (docker_runs w).
    rewrite Hp. unfold is_Exception. rewrite send_json_accepting by assumption.
    split; [reflexivity|]. simpl.
    rewrite <- ?app_assoc. simpl. rewrite <- ?app_assoc. reflexivity.
Qed.

Lemma outputs_are_output ts : Forall (fun f => ftype f = output) (map Output ts).
Proof. induction ts; simpl; constructor; auto. Qed.

Lemma plain_fault_phase status_msg c e :
  plain_fault c e ->
  phase_result c = Raise e
  /\ exists ts, phase_frames status_msg c = Status status_msg :: map Output ts.
Proof.
  intros (Hs & Ht & He). unfold phase_result, phase_frames.
  rewrite Hs, Ht, He. split; [reflexivity|].
  destruct (try_outcome_raise _ _ Ht) as [ts ->]. now exists ts.
Qed.




Lemma execute_code_frames env data w :
  recv env = Ok data ->
  fst (execute env (dict_get_default data "code" "")
               (dict_get_default data "language" "python") w) = Ok tt ->
  frames (snd (execute_code env w))
  = frames (snd (execute env (dict_get_default data "code" "")
                         (dict_get_default data "language" "python") w)).
Proof.
  intros Hr He.
  unfold execute_code, try_finally, try_except, bind, receive_json, lift.
  rewrite Hr. destruct (execute env _ _ w) as [r w1]. simpl in *. subst r.
  unfold websocket_close. now destruct (close_fault env).
Qed.

(** The Error frame by which [execute] reports a fault of its body is the
    last frame of the session. *)
Lemma session_fault_is_last env data config w e :
  recv env = Ok data ->
  dict_get LANGUAGE_CONFIGS (dict_get_default data "language" "python")
  = Some config ->
  existsb (String.eqb (work_dir_of env)) (dirs w) = false ->
  mkdir_fault env = None ->
  let body := execute_body env config (dict_get_default data "language" "python")
                (dict_get_default data "code" "") (work_dir_of env)
                (with_dir (work_dir_of env) w) in
  fst body = Raise e -> send_fault env (sends (snd body)) = None ->
  exists pre, session_frames env w = (pre ++ [Error (exn_str e)])%list.
Proof.
  intros Hr Hl Hd Hm body Hb Hs.
  destruct (execute_handler env (dict_get_default data "code" "")
              (dict_get_default data "language" "python") config w Hl Hd Hm)
    as [_ H].
  destruct (H e Hb Hs) as [E1 E2].
  destruct (traces_execute_body env config
              (dict_get_default data "language" "python")
              (dict_get_default data "code" "") (work_dir_of env)
              (with_dir (work_dir_of env) w)) as (pre & _ & Ep & _).
  exists pre. unfold session_frames.
  rewrite (execute_code_frames env data w Hr E1), E2. rewrite Ep.
  change (frames (with_dir (work_dir_of env) w)) with (frames w).
  now rewrite <- app_assoc, skipn_length_app.
Qed.




Lemma C2_unsupported_language_witness :
  dict_get LANGUAGE_CONFIGS "ruby" = None
  /\ frames (snd (execute_code env_ruby initial_world))
     = [Error "Unsupported language: ruby"]
  /\ closed (snd (execute_code env_ruby initial_world)) = true
  /\ same_resources initial_world (snd (execute_code env_ruby initial_world)).
Proof.
  pose proof (C2_unsupported_language env_ruby
                [("code", "puts 1"); ("language", "ruby")] initial_world
                eq_refl eq_refl) as (R & _ & F & C & _).
  split; [reflexivity|]. split; [exact (F eq_refl)|].
  split; [exact (C eq_refl) | exact R].
Defined.


Lemma C9_missing_fields_default_witness :
  frames (snd (execute_code env_empty_message initial_world))
  = [Status "Starting execution..."; Status "Running...";
     Status "Execution complete"]
  /\ execute_code (with_recv env_empty_message (Ok [])) initial_world
     = execute_code (with_recv env_empty_message (Ok [("code", "")])) initial_world
  /\ execute_code (with_recv env_empty_message (Ok [])) initial_world
     = execute_code (with_recv env_empty_message (Ok [("language", "python")]))
                    initial_world.
Proof.
  pose proof (C9_missing_fields_default env_empty_message [] initial_world)
    as (Hc & Hl & _ & Hf).
  split; [|split; [exact (Hc eq_refl) | exact (Hl eq_refl)]].
  refine (Hf eq_refl eq_refl eq_refl _ [] _).
  - split; [intros n; reflexivity | repeat split; reflexivity].
  - repeat split; reflexivity.
Defined.


(** * Further properties of the code *)

(** ** The catalogue and the registry *)

Lemma dict_get_in_keys {V : Type} (d : list (string * V)) k :
  In k (map fst d) <-> exists v, dict_get d k = Some v.
Proof.
  induction d as [|[k' v'] d IH]; simpl.
  - split; [intros [] | intros [v [=]]].
  - destruct (String.eqb k k') eqn:E.
    + apply String.eqb_eq in E. subst k'. split; eauto.
    + apply String.eqb_neq in E. rewrite <- IH. split; [|auto].
      intros [H|H]; [congruence | exact H].
Qed.

(** X1: the languages served by [/languages] are exactly the ones
    [execute] accepts.  A listed language has a profile; a language that
    is not listed makes [execute] do nothing but send the "Unsupported
    language" frame.  No language is listed twice. *)
Theorem X1_catalogue_lists_supported language :
  (In language get_languages
   <-> exists config, dict_get LANGUAGE_CONFIGS language = Some config)
  /\ (~ In language get_languages ->
      forall env code,
        execute env code language
        = send_json env (Error ("Unsupported language: " ++ language)))
  /\ NoDup get_languages.
Proof.
  split; [apply dict_get_in_keys|]. split.
  - intros Hn env code. unfold execute.
    destruct (dict_get LANGUAGE_CONFIGS language) as [config|] eqn:E;
      [|reflexivity].
    exfalso. apply Hn. apply dict_get_in_keys. eauto.
  - unfold get_languages. simpl.
    repeat (constructor; [simpl; intuition discriminate|]). constructor.
Qed.

Lemma X1_catalogue_lists_supported_witness :
  ~ In "ruby" get_languages
  /\ execute env_ruby "puts 1" "ruby"
     = send_json env_ruby (Error ("Unsupported language: " ++ "ruby")).
Proof.
  assert (Hn : ~ In "ruby" get_languages).
  { simpl. intuition discriminate. }
  split; [exact Hn|].
  exact (proj1 (proj2 (X1_catalogue_lists_supported "ruby")) Hn env_ruby "puts 1").
Defined.

(** ** Start-up *)

Lemma existsb_eqb_In name l : existsb (String.eqb name) l = true <-> In name l.
Proof.
  rewrite existsb_exists. split.
  - intros (x & Hx & E). apply String.eqb_eq in E. now subst.
  - intros H. exists name. split; [exact H | apply String.eqb_refl].
Qed.

Lemma init_loop_grows o items st x :
  In x (local_images st) -> In x (local_images (snd (init_loop o items st))).
Proof.
  revert st. induction items as [|[lang config] rest IH]; intros st Hx; simpl;
    [exact Hx|].
  destruct (images_get o (image config) st); [now apply IH | | exact Hx].
  unfold images_pull. destruct (pull_fault o (image config)); simpl; [exact Hx|].
  apply IH. simpl. now right.
Qed.

Lemma init_loop_ok_present o items st :
  fst (init_loop o items st) = Ok tt ->
  forall item, In item items ->
               In (image (snd item)) (local_images (snd (init_loop o items st))).
Proof.
  revert st. induction items as [|[lang config] rest IH]; intros st Hok item;
    simpl in *; [intros []|].
  unfold images_get in *.
  destruct (get_fault o (image config)); [discriminate|].
  destruct (existsb _ _) eqn:E.
  - intros [<-|Hin]; [|now apply IH].
    apply init_loop_grows. now apply existsb_eqb_In.
  - unfold images_pull in *.
    destruct (pull_fault o (image config)); simpl in *; [discriminate|].
    intros [<-|Hin]; [|now apply IH].
    apply init_loop_grows. simpl. now left.
Qed.

(** X2: when [__init__] completes, every image of the registry is in the
    local store, and no image that was there has gone. *)
Theorem X2_startup_images_present o st :
  fst (__init__ o st) = Ok tt ->
  (forall name, In name registry_images ->
                In name (local_images (snd (__init__ o st))))
  /\ (forall name, In name (local_images st) ->
                   In name (local_images (snd (__init__ o st)))).
Proof.
  intros Hok. split.
  - intros name Hin. unfold registry_images in Hin. apply in_map_iff in Hin.
    destruct Hin as (item & <- & Hin).
    now apply (init_loop_ok_present o LANGUAGE_CONFIGS st Hok item).
  - intros name. apply init_loop_grows.
Qed.

Lemma X2_startup_images_present_witness :
  In "gcc:latest"
     (local_images (snd (__init__ no_faults (mkImages ["python:3.11-slim"] [] [])))).
Proof.
  apply (proj1 (X2_startup_images_present no_faults
                  (mkImages ["python:3.11-slim"] [] []) eq_refl)).
  simpl. auto.
Defined.

Lemma init_loop_pulls o items st :
  exists np,
    pulls (snd (init_loop o items st)) = (pulls st ++ np)%list
    /\ printed (snd (init_loop o items st))
       = (printed st ++ map pull_line np)%list
    /\ NoDup np
    /\ Forall (fun i => ~ In i (local_images st)
                        /\ In i (map (fun item => image (snd item)) items)) np.
Proof.
  revert st. induction items as [|[lang config] rest IH]; intros st; simpl.
  - exists []. rewrite !app_nil_r. repeat split; constructor.
  - unfold images_get.
    destruct (get_fault o (image config)).
    { exists []. rewrite !app_nil_r. repeat split; constructor. }
    destruct (existsb _ _) eqn:E.
    + destruct (IH st) as (np & E1 & E2 & N & F). exists np.
      repeat split; auto. eapply Forall_impl; [|exact F].
      simpl. intros i [H1 H2]. auto.
    + assert (Hn : ~ In (image config) (local_images st)).
      { intros H. apply existsb_eqb_In in H. congruence. }
      unfold images_pull. destruct (pull_fault o (image config)); simpl.
      * exists [image config]. repeat split.
        -- constructor; [intros [] | constructor].
        -- constructor; [|constructor]. split; [exact Hn | now left].
      * destruct (IH (mkImages (image config :: local_images st)
                               (pulls st ++ [image config])
                               (printed st ++ [pull_line (image config)])))
          as (np & E1 & E2 & N & F). simpl in *.
        exists (image config :: np). repeat split.
        -- rewrite E1, <- app_assoc. reflexivity.
        -- rewrite E2, <- app_assoc. reflexivity.
        -- constructor; [|exact N]. intros Hin.
           rewrite Forall_forall in F. destruct (F _ Hin) as [H _].
           apply H. now left.
        -- constructor; [split; [exact Hn | now left]|].
           eapply Forall_impl; [|exact F]. simpl. intros i [H1 H2].
           split; [intros H; apply H1; now right | now right].
Qed.

Lemma skipn_length_app_string (l1 l2 : list string) :
  skipn (length l1) (l1 ++ l2) = l2.
Proof. induction l1 as [|x l1 IH]; simpl; auto. Qed.

(** X3: on every path, the pulls of one start-up are images of the
    registry that were not in the store when it began, no image is pulled
    twice, and one line "Pulling <image>..." is printed for each pull, in
    the same order. *)
Theorem X3_startup_pulls_only_missing o st :
  pulls (snd (__init__ o st)) = (pulls st ++ new_pulls o st)%list
  /\ printed (snd (__init__ o st)) = (printed st ++ new_printed o st)%list
  /\ new_printed o st = map pull_line (new_pulls o st)
  /\ NoDup (new_pulls o st)
  /\ Forall (fun i => ~ In i (local_images st) /\ In i registry_images)
            (new_pulls o st).
Proof.
  destruct (init_loop_pulls o LANGUAGE_CONFIGS st) as (np & E1 & E2 & N & F).
  unfold new_pulls, new_printed, __init__.
  rewrite E1, E2, !skipn_length_app_string. auto.
Qed.

Lemma init_loop_all_present o items st :
  (forall name, get_fault o name = None) ->
  (forall item, In item items -> In (image (snd item)) (local_images st)) ->
  init_loop o items st = (Ok tt, st).
Proof.
  intros Hg. induction items as [|[lang config] rest IH]; intros Hall; simpl;
    [reflexivity|].
  unfold images_get. rewrite Hg.
  assert (E : existsb (String.eqb (image config)) (local_images st) = true).
  { apply existsb_eqb_In. apply (Hall (lang, config)). now left. }
  rewrite E. apply IH. intros item Hin. apply Hall. now right.
Qed.

(** X4: a start-up that completed has nothing left to do: run again on
    the store it left (with [images.get] answering), [__init__] pulls
    nothing, prints nothing and completes. *)
Theorem X4_startup_idempotent o o' st :
  fst (__init__ o st) = Ok tt ->
  (forall name, get_fault o' name = None) ->
  __init__ o' (snd (__init__ o st)) = (Ok tt, snd (__init__ o st)).
Proof.
  intros Hok Hg. apply init_loop_all_present; [exact Hg|].
  intros item Hin. now apply (init_loop_ok_present o LANGUAGE_CONFIGS st Hok).
Qed.

Lemma X4_startup_idempotent_witness :
  __init__ no_faults (snd (__init__ no_faults (mkImages [] [] [])))
  = (Ok tt, snd (__init__ no_faults (mkImages [] [] []))).
Proof.
  apply (X4_startup_idempotent no_faults no_faults (mkImages [] [] []) eq_refl).
  intros name. reflexivity.
Defined.

Lemma init_loop_raise o items st e :
  fst (init_loop o items st) = Raise e ->
  exists name,
    In name (map (fun item => image (snd item)) items)
    /\ (get_fault o name = Some e \/ pull_fault o name = Some e).
Proof.
  revert st. induction items as [|[lang config] rest IH]; intros st; simpl;
    [discriminate|].
  unfold images_get. destruct (get_fault o (image config)) as [e1|] eqn:G.
  { simpl. intros [= <-]. exists (image config). auto. }
  destruct (existsb _ _).
  - intros H. destruct (IH _ H) as (name & Hin & Hf). exists name. auto.
  - unfold images_pull. destruct (pull_fault o (image config)) as [e1|] eqn:P;
      simpl.
    + intros [= <-]. exists (image config). auto.
    + intros H. destruct (IH _ H) as (name & Hin & Hf). exists name. auto.
Qed.

Lemma init_loop_no_fault o items st :
  (forall name, In name (map (fun item => image (snd item)) items) ->
                get_fault o name = None /\ pull_fault o name = None) ->
  fst (init_loop o items st) = Ok tt.
Proof.
  intros Hf. destruct (fst (init_loop o items st)) as [[]|e] eqn:E;
    [reflexivity|].
  destruct (init_loop_raise o items st e E) as (name & Hin & [H|H]);
    destruct (Hf name Hin); congruence.
Qed.

Lemma init_loop_get_fault o items st name :
  In name (map (fun item => image (snd item)) items) ->
  get_fault o name <> None ->
  exists e, fst (init_loop o items st) = Raise e.
Proof.
  revert st. induction items as [|[lang config] rest IH]; intros st; simpl;
    [intros []|].
  intros Hin Hg. unfold images_get.
  destruct (get_fault o (image config)) as [e|] eqn:G; [simpl; eauto|].
  assert (Hrest : In name (map (fun item => image (snd item)) rest)).
  { destruct Hin as [<-|H]; [congruence | exact H]. }
  destruct (existsb _ _); [now apply IH|].
  unfold images_pull. destruct (pull_fault o (image config)); simpl; [eauto|].
  now apply IH.
Qed.

Lemma init_loop_pull_fault o items st name :
  In name (map (fun item => image (snd item)) items) ->
  ~ In name (local_images st) ->
  pull_fault o name <> None ->
  exists e, fst (init_loop o items st) = Raise e.
Proof.
  revert st. induction items as [|[lang config] rest IH]; intros st; simpl;
    [intros []|].
  intros Hin Hn Hp. unfold images_get.
  destruct (get_fault o (image config)) as [e|]; [simpl; eauto|].
  destruct (existsb _ _) eqn:E.
  - apply existsb_eqb_In in E. apply IH; auto.
    destruct Hin as [<-|H]; [contradiction | exact H].
  - unfold images_pull.
    destruct (pull_fault o (image config)) as [e|] eqn:P; simpl; [eauto|].
    assert (Hne : image config <> name) by congruence.
    apply IH; auto.
    + destruct Hin as [H|H]; [contradiction | exact H].
    + simpl. intros [H|H]; contradiction.
Qed.

Lemma init_loop_raise_last o items st e :
  fst (init_loop o items st) = Raise e ->
  exists name,
    In name (map (fun item => image (snd item)) items)
    /\ (get_fault o name = Some e
        \/ (pull_fault o name = Some e
            /\ exists l, pulls (snd (init_loop o items st))
                         = (pulls st ++ l ++ [name])%list)).
Proof.
  revert st. induction items as [|[lang config] rest IH]; intros st; simpl;
    [discriminate|].
  unfold images_get. destruct (get_fault o (image config)) as [e1|] eqn:G.
  { simpl. intros [= <-]. exists (image config). auto. }
  destruct (existsb _ _).
  - intros H. destruct (IH _ H) as (name & Hin & Hf). exists name. auto.
  - unfold images_pull. destruct (pull_fault o (image config)) as [e1|] eqn:P;
      simpl.
    + intros [= <-]. exists (image config). split; [now left|]. right.
      split; [exact P|]. now exists [].
    + intros H. destruct (IH _ H) as (name & Hin & Hf). exists name.
      split; [now right|]. destruct Hf as [Hf|[Hf [l Hl]]]; [now left|].
      right. split; [exact Hf|]. exists (image config :: l).
      rewrite Hl. simpl. now rewrite <- app_assoc.
Qed.



(** ** The endpoint: faults before the session, closing *)

(** X6: when [receive_json] raises (a message that is not JSON, a client
    that left), the endpoint touches neither the filesystem nor Docker,
    sends the one frame Error "Server error: <str(e)>" if the channel takes
    it and nothing otherwise, and closes the channel. *)
Theorem X6_receive_failure env e w :
  recv env = Raise e ->
  let w' := snd (execute_code env w) in
  same_resources w w'
  /\ (send_fault env (sends w) = None ->
      frames w' = (frames w ++ [Error ("Server error: " ++ exn_str e)])%list)
  /\ (send_fault env (sends w) <> None -> frames w' = frames w)
  /\ (close_fault env = None -> closed w' = true)
  /\ (send_fault env (sends w) = None -> close_fault env = None ->
      fst (execute_code env w) = Ok tt).
Proof.
  intros Hr w'. subst w'.
  unfold execute_code, try_finally, try_except, bind, receive_json, lift.
  rewrite Hr. unfold is_Exception, send_json, websocket_close.
  destruct (send_fault env (sends w)) as [e1|], (close_fault env) as [e2|];
    simpl; repeat split; intros; try reflexivity; try discriminate;
    try contradiction; congruence.
Qed.

Lemma X6_receive_failure_witness :
  frames (snd (execute_code env_recv_fails initial_world))
  = [Error "Server error: Expecting value: line 1 column 1 (char 0)"]
  /\ closed (snd (execute_code env_recv_fails initial_world)) = true.
Proof.
  pose proof (X6_receive_failure env_recv_fails
                (mkExn OtherException "Expecting value: line 1 column 1 (char 0)")
                initial_world eq_refl) as (_ & F & _ & C & _).
  split; [exact (F eq_refl) | exact (C eq_refl)].
Defined.

(** X7: when the workspace cannot be created ([mkdir] raises, also
    because the directory is already there), the session is over before
    its [try]: nothing is written, no unit is spawned, [rmtree] is not
    called (a directory that was there stays, with its files), and the
    fault is reported by the endpoint as Error "Server error: <str(e)>". *)
Theorem X7_workspace_allocation_failure env data config e w :
  recv env = Ok data ->
  dict_get LANGUAGE_CONFIGS (dict_get_default data "language" "python")
  = Some config ->
  fst (mkdir env (work_dir_of env) w) = Raise e ->
  let w' := snd (execute_code env w) in
  same_resources w w'
  /\ (send_fault env (sends w) = None ->
      frames w' = (frames w ++ [Error ("Server error: " ++ exn_str e)])%list)
  /\ (close_fault env = None -> closed w' = true).
Proof.
  intros Hr Hl Hm w'. subst w'.
  unfold execute_code, try_finally, try_except, bind, receive_json, lift.
  rewrite Hr. unfold execute. rewrite Hl. cbv zeta. fold (work_dir_of env).
  unfold bind.
  assert (Hw : snd (mkdir env (work_dir_of env) w) = w).
  { revert Hm. unfold mkdir. destruct (existsb _ _); [reflexivity|].
    destruct (mkdir_fault env); [reflexivity | discriminate]. }
  destruct (mkdir env (work_dir_of env) w) as [[[]|e1] w1]; simpl in Hm, Hw;
    [discriminate|].
  injection Hm as ->. subst w1.
  unfold is_Exception, send_json, websocket_close.
  destruct (send_fault env (sends w)) as [e1|], (close_fault env) as [e2|];
    simpl; repeat split; intros; try reflexivity; try discriminate.
Qed.

Lemma X7_workspace_allocation_failure_witness :
  let w' := snd (execute_code env_hello world_collision) in
  frames w'
  = [Error "Server error: [Errno 17] File exists: '/tmp/code_execution/1b4e28ba'"]
  /\ dirs w' = ["/tmp/code_execution/1b4e28ba"]
  /\ files w' = [("/tmp/code_execution/1b4e28ba/main.py", "print(1)")]
  /\ rmtree_calls w' = [].
Proof.
  pose proof (X7_workspace_allocation_failure env_hello
                [("code", hello_code); ("language", "python")] python_profile
                (mkExn OtherException
                       "[Errno 17] File exists: '/tmp/code_execution/1b4e28ba'")
                world_collision eq_refl eq_refl eq_refl)
    as ((D & Fi & _ & Rm) & F & _).
  cbv zeta. split; [exact (F eq_refl)|]. split; [exact D|].
  split; [exact Fi | exact Rm].
Defined.

Lemma send_json_closed env f : preserves same_closed (send_json env f).
Proof. intros w. unfold send_json. now destruct (send_fault env (sends w)). Qed.

Lemma guarded_session_closed env :
  preserves same_closed
    (try_except
       (data <- receive_json env ;;
        execute env (dict_get_default data "code" "")
                (dict_get_default data "language" "python"))
       is_Exception
       (fun e => send_json env (Error ("Server error: " ++ exn_str e)))).
Proof.
  assert (Hrefl : forall w, same_closed w w) by reflexivity.
  assert (Htrans : forall a b c, same_closed a b -> same_closed b c ->
                                 same_closed a c)
    by (unfold same_closed; congruence).
  apply preserves_try_except; [exact Htrans | | intros e _; apply send_json_closed].
  apply preserves_bind; [exact Htrans | apply preserves_lift, Hrefl | intros data].
  apply preserves_execute; auto.
  - apply send_json_closed.
  - intros image command work_dir w. now rewrite containers_run_eq.
  - intros p c w. unfold write_text. now destruct (write_fault env).
  - intros p w. unfold mkdir. destruct (existsb _ _); [reflexivity|].
    now destruct (mkdir_fault env).
  - intros p w. apply rmtree_eq.
Qed.

(** X8: the channel is closed at the end of every session, whatever
    happened before (any fault, any request); when [websocket.close()]
    itself raises, that exception is the outcome of the endpoint and the
    channel state is as it was. *)
Theorem X8_channel_always_closed env w :
  (close_fault env = None -> closed (snd (execute_code env w)) = true)
  /\ (forall e, close_fault env = Some e ->
                fst (execute_code env w) = Raise e
                /\ closed (snd (execute_code env w)) = closed w).
Proof.
  pose proof (guarded_session_closed env w) as Hc. unfold same_closed in Hc.
  unfold execute_code, try_finally.
  destruct (try_except _ _ _ w) as [r w1]. simpl in Hc.
  unfold websocket_close. split.
  - intros ->. reflexivity.
  - intros e ->. simpl. auto.
Qed.

Lemma X8_channel_always_closed_witness :
  closed (snd (execute_code env_disconnect initial_world)) = true.
Proof.
  exact (proj1 (X8_channel_always_closed env_disconnect initial_world) eq_refl).
Defined.

Lemma send_json_dead env f w :
  dead_channel env ->
  exists e, send_json env f w
            = (Raise e,
               mkWorld (frames w) (S (sends w)) (closed w) (dirs w) (files w)
                       (docker_runs w) (rmtree_calls w)).
Proof.
  intros Hd. unfold send_json. specialize (Hd (sends w)).
  destruct (send_fault env (sends w)) as [e|]; [eauto | contradiction].
Qed.

(** X9: on a channel that is dead from the start no frame is delivered
    and no execution unit is ever spawned, whatever the request; the
    endpoint ends in an exception. *)
Theorem X9_dead_channel_spawns_nothing env w :
  dead_channel env ->
  frames (snd (execute_code env w)) = frames w
  /\ docker_runs (snd (execute_code env w)) = docker_runs w
  /\ exists e, fst (execute_code env w) = Raise e.
Proof.
  intros Hd.
  assert (Hfin : forall e0 w1,
             frames w1 = frames w -> docker_runs w1 = docker_runs w ->
             let r := match send_json env (Error ("Server error: " ++ exn_str e0)) w1 with
                      | (r1, w2) =>
                          match websocket_close env w2 with
                          | (Ok _, w3) => (r1, w3)
                          | (Raise e, w3) => (Raise e, w3)
                          end
                      end in
             frames (snd r) = frames w /\ docker_runs (snd r) = docker_runs w
             /\ exists e, fst r = Raise e).
  { intros e0 w1 F D.
    destruct (send_json_dead env (Error ("Server error: " ++ exn_str e0)) w1 Hd)
      as [e1 ->].
    unfold websocket_close. destruct (close_fault env) as [e2|]; simpl; eauto. }
  unfold execute_code, try_finally, try_except, bind, receive_json, lift.
  unfold is_Exception.
  destruct (recv env) as [data|e0]; [|now apply Hfin].
  unfold execute.
  destruct (dict_get LANGUAGE_CONFIGS _) as [config|].
  - cbv zeta. fold (work_dir_of env). unfold bind.
    pose proof (mkdir_runs env (work_dir_of env) w) as Dm.
    assert (Fm : frames (snd (mkdir env (work_dir_of env) w)) = frames w).
    { unfold mkdir. destruct (existsb _ _); [reflexivity|].
      now destruct (mkdir_fault env). }
    destruct (mkdir env (work_dir_of env) w) as [[[]|e0] w1]; simpl in Dm, Fm;
      [|now apply Hfin].
    match goal with
    | |- context [try_finally ?m (rmtree env ?p) w1] =>
        pose proof (try_finally_rmtree env p m w1) as (R1 & R2 & _ & _ & R5 & _);
        destruct (try_finally m (rmtree env p) w1) as [r2 w2]
    end.
    simpl in R1, R2, R5. unfold try_except, execute_body, bind in R1, R2, R5.
    unfold write_text in R1, R2, R5.
    destruct (write_fault env) as [e1|].
    + destruct (send_json_dead env (Error (exn_str e1)) w1 Hd) as [e2 E2].
      rewrite E2 in R1, R2, R5. simpl in R1, R2, R5. subst r2.
      apply Hfin; congruence.
    + match type of R1 with
      | context [send_json env (Status "Starting execution...") ?w0] =>
          destruct (send_json_dead env (Status "Starting execution...") w0 Hd)
            as [e2 E2]
      end.
      rewrite E2 in R1, R2, R5.
      match type of R1 with
      | context [send_json env (Error (exn_str e2)) ?w0] =>
          destruct (send_json_dead env (Error (exn_str e2)) w0 Hd) as [e3 E3]
      end.
      rewrite E3 in R1, R2, R5. simpl in R1, R2, R5. subst r2.
      apply Hfin; congruence.
  - destruct (send_json_dead env (Error ("Unsupported language: "
                 ++ dict_get_default data "language" "python")) w Hd) as [e1 ->].
    now apply Hfin.
Qed.

Lemma X9_dead_channel_spawns_nothing_witness :
  docker_runs (snd (execute_code env_dead initial_world)) = []
  /\ rmtree_calls (snd (execute_code env_dead initial_world))
     = ["/tmp/code_execution/1b4e28ba"].
Proof.
  split; [|reflexivity].
  apply (X9_dead_channel_spawns_nothing env_dead initial_world).
  intros n. discriminate.
Defined.

(** ** The execution units of a session *)

Lemma runs_spec_silent {A : Type} (m : M A) (Q : Result A -> list RunConfig -> Prop) :
  (forall w, docker_runs (snd (m w)) = docker_runs w) ->
  (forall w, Q (fst (m w)) []) -> runs_spec m Q.
Proof. intros Hs HQ w. exists []. rewrite app_nil_r. auto. Qed.

Lemma runs_spec_bind {A B : Type} (m : M A) (k : A -> M B) Q Q' :
  runs_spec m Q ->
  (forall a l, Q (Ok a) l -> runs_spec (k a) (fun r l2 => Q' r (l ++ l2)%list)) ->
  (forall e l, Q (Raise e) l -> Q' (Raise e) l) ->
  runs_spec (bind m k) Q'.
Proof.
  intros Hm Hk He w. unfold bind. destruct (Hm w) as (l & E & q).
  destruct (m w) as [[a|e] w1]; simpl in *.
  - destruct (Hk a l q w1) as (l2 & E2 & q2). exists (l ++ l2)%list.
    split; [now rewrite E2, E, app_assoc | exact q2].
  - exists l. auto.
Qed.

Lemma runs_spec_weaken {A : Type} (m : M A) (Q Q' : Result A -> list RunConfig -> Prop) :
  runs_spec m Q -> (forall r l, Q r l -> Q' r l) -> runs_spec m Q'.
Proof. intros H HQ w. destruct (H w) as (l & E & q). exists l. auto. Qed.

Lemma stream_and_wait_runs env c w :
  docker_runs (snd (stream_and_wait env c w)) = docker_runs w.
Proof.
  apply (preserves_stream_and_wait (fun a b => docker_runs b = docker_runs a)).
  - reflexivity.
  - congruence.
  - intros f x. apply send_json_runs.
Qed.

Lemma run_container_runs_spec env image command work_dir status_msg :
  runs_spec (_run_container env image command work_dir status_msg)
            (fun r l => l = [run_config image command work_dir]
                        \/ (l = [] /\ exists e, r = Raise e)).
Proof.
  intros w. unfold _run_container, bind.
  pose proof (send_json_runs env (Status status_msg) w) as E0.
  destruct (send_json env (Status status_msg) w) as [[[]|e] w0]; simpl in E0.
  2: { exists []. rewrite app_nil_r. simpl. eauto. }
  rewrite containers_run_eq. exists [run_config image command work_dir].
  destruct (spawn_fault _) as [e|]; simpl; [rewrite E0; auto|].
  split; [|auto]. unfold try_except.
  pose proof (stream_and_wait_runs env (container env (length (docker_runs w0)))
                (with_run (run_config image command work_dir) w0)) as E1.
  destruct (stream_and_wait env _ _) as [[[]|e] w1]; simpl in *.
  - now rewrite E1, E0.
  - destruct (is_APIError e); simpl; [rewrite send_json_runs|]; now rewrite E1, E0.
Qed.

Lemma runs_spec_lift_Ok {A B : Type} (a : A) (k : A -> M B) Q :
  runs_spec (k a) Q -> runs_spec (bind (lift (Ok a)) k) Q.
Proof. intros H w. unfold bind, lift. apply H. Qed.

Lemma execute_body_runs_spec env config language code work_dir rcmd cs :
  run_command config language = Ok rcmd ->
  (if truthy (compile_cmd config)
   then exists ccmd, compile_command config = Ok ccmd
                     /\ cs = [run_config (image config) ccmd work_dir]
   else cs = []) ->
  runs_spec (execute_body env config language code work_dir)
            (fun _ l => l = [] \/ l = cs
                        \/ l = (cs ++ [run_config (image config) rcmd work_dir])%list).
Proof.
  intros Hr Hc. unfold execute_body.
  apply runs_spec_bind with (Q := fun _ l => l = []).
  { apply runs_spec_silent; auto. intros w. apply write_text_runs. }
  2: { intros e l ->. auto. }
  intros _ l ->. simpl.
  apply runs_spec_bind with (Q := fun _ l => l = []).
  { apply runs_spec_silent; auto. intros w. apply send_json_runs. }
  2: { intros e l ->. auto. }
  intros _ l ->. simpl.
  apply runs_spec_bind
    with (Q := fun r l => l = cs \/ (l = [] /\ exists e, r = Raise e)).
  { destruct (truthy (compile_cmd config)).
    - destruct Hc as (ccmd & Hcc & ->). unfold compile_command in Hcc.
      rewrite Hcc. apply runs_spec_lift_Ok. apply run_container_runs_spec.
    - subst cs. apply runs_spec_silent; auto. }
  2: { intros e l [-> | [-> _]]; auto. }
  intros _ l [-> | [_ [e [=]]]].
  unfold run_command in Hr. rewrite Hr. apply runs_spec_lift_Ok.
  apply runs_spec_bind
    with (Q := fun r l => l = [run_config (image config) rcmd work_dir]
                          \/ (l = [] /\ exists e, r = Raise e)).
  { apply run_container_runs_spec. }
  2: { intros e l [-> | [-> _]]; [auto | rewrite app_nil_r; auto]. }
  intros _ l [-> | [_ [e [=]]]].
  apply runs_spec_silent; [intros w; apply send_json_runs|].
  intros w. rewrite app_nil_r. auto.
Qed.

Lemma skipn_length_app_runs (l1 l2 : list RunConfig) :
  skipn (length l1) (l1 ++ l2) = l2.
Proof. induction l1 as [|x l1 IH]; simpl; auto. Qed.

(** X10: on every path a session asks for at most two execution units,
    the compile unit (when the profile declares a compile command) and then
    the run unit, never the run unit alone after a declared compile phase.
    Both use the image of the profile and mount the session's own
    workspace, and their commands are fixed by the language: the submitted
    code never reaches a command line. *)
Theorem X10_session_units env code language config w :
  dict_get LANGUAGE_CONFIGS language = Some config ->
  exists rcmd cs,
    run_command config language = Ok rcmd
    /\ (if truthy (compile_cmd config)
        then exists ccmd, compile_command config = Ok ccmd
                          /\ cs = [run_config (image config) ccmd (work_dir_of env)]
        else cs = [])
    /\ docker_runs (snd (execute env code language w))
       = (docker_runs w ++ new_runs w (snd (execute env code language w)))%list
    /\ (new_runs w (snd (execute env code language w)) = []
        \/ new_runs w (snd (execute env code language w)) = cs
        \/ new_runs w (snd (execute env code language w))
           = (cs ++ [run_config (image config) rcmd (work_dir_of env)])%list).
Proof.
  intros Hl. destruct (registry_commands _ _ Hl) as [[rcmd Hr] Hcc].
  exists rcmd.
  assert (Hcs : exists cs,
             if truthy (compile_cmd config)
             then exists ccmd, compile_command config = Ok ccmd
                               /\ cs = [run_config (image config) ccmd (work_dir_of env)]
             else cs = []).
  { destruct (truthy (compile_cmd config)).
    - destruct (Hcc eq_refl) as [ccmd Hc]. eauto.
    - eauto. }
  destruct Hcs as [cs Hcs]. exists cs. split; [exact Hr|]. split; [exact Hcs|].
  assert (H : exists l,
             docker_runs (snd (execute env code language w))
             = (docker_runs w ++ l)%list
             /\ (l = [] \/ l = cs
                 \/ l = (cs ++ [run_config (image config) rcmd (work_dir_of env)])%list)).
  { unfold execute. rewrite Hl. cbv zeta. fold (work_dir_of env). unfold bind.
    pose proof (mkdir_runs env (work_dir_of env) w) as Dm.
    destruct (mkdir env (work_dir_of env) w) as [[[]|e0] w1]; simpl in Dm.
    2: { exists []. rewrite app_nil_r. auto. }
    match goal with
    | |- context [try_finally ?m (rmtree env ?p) w1] =>
        destruct (try_finally_rmtree env p m w1) as (_ & _ & _ & _ & -> & _)
    end.
    unfold try_except.
    destruct (execute_body_runs_spec env config language code (work_dir_of env)
                rcmd cs Hr Hcs w1) as (l & E & q).
    destruct (execute_body env config language code (work_dir_of env) w1)
      as [[[]|e] w2]; simpl in *.
    - exists l. now rewrite E, Dm.
    - unfold is_Exception. rewrite send_json_runs. exists l. now rewrite E, Dm. }
  destruct H as (l & E & q). unfold new_runs.
  rewrite E, skipn_length_app_runs. auto.
Qed.

Lemma X10_session_units_witness :
  map rc_command (docker_runs (snd (execute env_compile_spawn_fails cpp_code "cpp"
                                      initial_world)))
  = ["sh -c 'g++ -o program main.cpp -std=c++17'"].
Proof.
  destruct (X10_session_units env_compile_spawn_fails cpp_code "cpp" cpp_profile
              initial_world eq_refl) as (rcmd & cs & _ & _ & _ & _).
  reflexivity.
Defined.

(** ** The workspace on disk *)

Lemma prefix_nil s : String.prefix "" s = true.
Proof. now destruct s. Qed.

Lemma prefix_append s t : String.prefix s (s ++ t) = true.
Proof.
  induction s as [|a s IH]; [apply prefix_nil|].
  change (String a s ++ t) with (String a (s ++ t)). simpl.
  destruct (ascii_dec a a); [exact IH | contradiction].
Qed.

Lemma string_append_assoc (a b c : string) : (a ++ b) ++ c = a ++ b ++ c.
Proof.
  induction a as [|x a IH]; [reflexivity|].
  change ((String x a ++ b) ++ c) with (String x ((a ++ b) ++ c)).
  change (String x a ++ b ++ c) with (String x (a ++ b ++ c)).
  now rewrite IH.
Qed.

Lemma under_path_join dir name content :
  under dir (path_join dir name, content) = true.
Proof.
  unfold under, path_join. simpl fst. rewrite <- string_append_assoc.
  apply prefix_append.
Qed.

Lemma same_files_trans a b c : same_files a b -> same_files b c -> same_files a c.
Proof. unfold same_files. congruence. Qed.

Lemma send_json_files env f : preserves same_files (send_json env f).
Proof. intros w. unfold send_json. now destruct (send_fault env (sends w)). Qed.

Lemma run_container_files env image command work_dir status_msg :
  preserves same_files (_run_container env image command work_dir status_msg).
Proof.
  apply preserves_run_container.
  - reflexivity.
  - apply same_files_trans.
  - apply send_json_files.
  - intros i c d w. now rewrite containers_run_eq.
Qed.

(** The only file operation of the body is the [write_text] of the code. *)
Lemma execute_body_files env config language code work_dir w :
  files (snd (execute_body env config language code work_dir w))
  = match write_fault env with
    | None => (path_join work_dir ("main." ++ file_ext config), code) :: files w
    | Some _ => files w
    end.
Proof.
  unfold execute_body. unfold bind at 1. unfold write_text.
  destruct (write_fault env) as [e|]; [reflexivity|].
  match goal with
  | |- files (snd (?rest ?w1)) = _ =>
      assert (H : preserves same_files rest); [|exact (H w1)]
  end.
  apply preserves_bind; [apply same_files_trans | apply send_json_files | intros _].
  apply preserves_bind; [apply same_files_trans | | intros _].
  { destruct (truthy (compile_cmd config)); [|now apply preserves_ret].
    apply preserves_bind;
      [apply same_files_trans | now apply preserves_lift | intros cmd].
    apply run_container_files. }
  apply preserves_bind;
    [apply same_files_trans | now apply preserves_lift | intros cmd].
  apply preserves_bind;
    [apply same_files_trans | apply run_container_files | intros _].
  apply send_json_files.
Qed.

Lemma guarded_body_files env config language code work_dir w :
  files (snd (try_except (execute_body env config language code work_dir)
                         is_Exception
                         (fun e => send_json env (Error (exn_str e))) w))
  = files (snd (execute_body env config language code work_dir w)).
Proof.
  unfold try_except.
  destruct (execute_body env config language code work_dir w) as [[[]|e] w1];
    [reflexivity|].
  unfold is_Exception. apply send_json_files.
Qed.

Lemma filter_fresh_dir path l :
  existsb (String.eqb path) l = false ->
  filter (fun d => negb (String.eqb path d)) l = l.
Proof.
  induction l as [|d l IH]; simpl; [reflexivity|].
  destruct (String.eqb path d); simpl; [discriminate|].
  intros H. now rewrite IH.
Qed.

Lemma filter_none_under dir l :
  Forall (fun pf => under dir pf = false) l ->
  filter (fun pf => negb (under dir pf)) l = l.
Proof.
  induction 1 as [|pf l H F IH]; simpl; [reflexivity|].
  now rewrite H, IH.
Qed.

(** X11: a session leaves the filesystem as it found it.  When the
    workspace directory is new and the removal works, then on every path
    (any fault of the units or of the channel) the directories are the ones
    of before, the files outside the workspace are untouched and no file is
    left under the workspace. *)
Theorem X11_workspace_leaves_no_trace env code language config w :
  dict_get LANGUAGE_CONFIGS language = Some config ->
  existsb (String.eqb (work_dir_of env)) (dirs w) = false ->
  mkdir_fault env = None ->
  rmtree_ok env = true ->
  let w' := snd (execute env code language w) in
  dirs w' = dirs w
  /\ files w' = filter (fun pf => negb (under (work_dir_of env) pf)) (files w)
  /\ (Forall (fun pf => under (work_dir_of env) pf = false) (files w) ->
      files w' = files w).
Proof.
  intros Hl Hd Hm Hok w'. subst w'.
  rewrite (execute_allocated _ _ _ _ _ Hl Hd Hm).
  pose proof (guarded_body_same_dirs env config language code (work_dir_of env)
                (with_dir (work_dir_of env) w)) as [Ed _].
  pose proof (guarded_body_files env config language code (work_dir_of env)
                (with_dir (work_dir_of env) w)) as Ef.
  rewrite execute_body_files in Ef.
  unfold try_finally.
  destruct (try_except _ _ _ (with_dir (work_dir_of env) w)) as [r w1].
  cbn [snd] in Ed, Ef. change (dirs (with_dir (work_dir_of env) w))
    with (work_dir_of env :: dirs w) in Ed.
  change (files (with_dir (work_dir_of env) w)) with (files w) in Ef.
  unfold rmtree. rewrite Hok. cbn [snd fst dirs files].
  assert (Efiles : filter (fun pf => negb (String.prefix (work_dir_of env ++ "/")
                                                         (fst pf))) (files w1)
                   = filter (fun pf => negb (under (work_dir_of env) pf)) (files w)).
  { rewrite Ef. destruct (write_fault env); [reflexivity|]. cbn [filter].
    pose proof (under_path_join (work_dir_of env) ("main." ++ file_ext config)
                  code) as U.
    unfold under in U. rewrite U. reflexivity. }
  split; [|split].
  - rewrite Ed. cbn [filter]. rewrite String.eqb_refl. cbn [negb].
    now apply filter_fresh_dir.
  - exact Efiles.
  - intros Hf. rewrite Efiles. now apply filter_none_under.
Qed.

Lemma X11_workspace_leaves_no_trace_witness :
  dirs (snd (execute env_timeout hello_code "python" initial_world)) = []
  /\ files (snd (execute env_timeout hello_code "python" initial_world)) = [].
Proof.
  pose proof (X11_workspace_leaves_no_trace env_timeout hello_code "python"
                python_profile initial_world eq_refl eq_refl eq_refl eq_refl)
    as (D & F & _).
  split; [exact D | exact F].
Defined.

(** X12: the submitted code is written unchanged, as the file
    [main.<file_ext>] of the workspace, before anything is sent or spawned,
    and the body of the session performs no other file operation; when the
    write fails the body ends there, with no frame sent and no unit
    spawned. *)
Theorem X12_code_written_verbatim env config language code work_dir w :
  let body := execute_body env config language code work_dir w in
  (write_fault env = None ->
   files (snd body)
   = (path_join work_dir ("main." ++ file_ext config), code) :: files w)
  /\ (forall e, write_fault env = Some e -> body = (Raise e, w)).
Proof.
  intros body. subst body. split.
  - intros Hw. now rewrite execute_body_files, Hw.
  - intros e Hw. unfold execute_body, bind, write_text.
    now rewrite Hw.
Qed.

Lemma X12_code_written_verbatim_witness :
  files (snd (execute_body env_hello python_profile "python" hello_code
                "/tmp/code_execution/1b4e28ba" initial_world))
  = [("/tmp/code_execution/1b4e28ba/main.py", hello_code)]
  /\ execute_body env_write_fails python_profile "python" hello_code
       "/tmp/code_execution/1b4e28ba" initial_world
     = (Raise (mkExn OtherException "[Errno 28] No space left on device"),
        initial_world).
Proof.
  split.
  - exact (proj1 (X12_code_written_verbatim env_hello python_profile "python"
                    hello_code "/tmp/code_execution/1b4e28ba" initial_world)
                 eq_refl).
  - exact (proj2 (X12_code_written_verbatim env_write_fails python_profile
                    "python" hello_code "/tmp/code_execution/1b4e28ba"
                    initial_world) _ eq_refl).
Defined.

(** ** Faults that end a session *)

Lemma try_outcome_no_status c :
  Forall (fun f => ftype f <> status) (fst (try_outcome c)).
Proof.
  assert (Ho : forall ts, Forall (fun f => ftype f <> status) (map Output ts)).
  { induction ts; simpl; constructor; [discriminate | assumption]. }
  unfold try_outcome.
  destruct (streamed (log_items c)) as [ts [e|]]; simpl; [apply Ho|].
  destruct (log_fault c); simpl; [apply Ho|].
  destruct (wait_result c) as [n|e]; simpl; [|apply Ho].
  destruct (Z.eqb n 0); simpl; [apply Ho|].
  apply Forall_app. split; [apply Ho|].
  constructor; [discriminate | constructor].
Qed.

Lemma phase_frames_statuses msg c s :
  In (Status s) (phase_frames msg c) -> s = msg.
Proof.
  unfold phase_frames. intros [H|H]; [now injection H|]. exfalso.
  pose proof (try_outcome_no_status c) as F. rewrite Forall_forall in F.
  destruct (spawn_fault c); [exact H|].
  destruct (snd (try_outcome c)) as [[]|e].
  - now apply (F _ H).
  - destruct (is_APIError e); [|now apply (F _ H)].
    apply in_app_or in H. destruct H as [H|[H|[]]]; [now apply (F _ H)|].
    discriminate H.
Qed.

(** X13: a fault of the compile phase that leaves [_run_container] (the
    unit cannot be created, a chunk does not decode, the wait fails with
    something else than an [APIError]) ends the session, unlike a nonzero
    compile exit code: the Error frame with [str(e)] is the last frame, no
    Status "Running..." is sent and the run unit is never asked for. *)
Theorem X13_compile_fault_ends_session env code language config w e :
  dict_get LANGUAGE_CONFIGS language = Some config ->
  truthy (compile_cmd config) = true ->
  healthy env w ->
  phase_result (compile_unit env w) = Raise e ->
  let fs := (Status "Starting execution..."
               :: phase_frames "Compiling..." (compile_unit env w)
               ++ [Error (exn_str e)])%list in
  fst (execute env code language w) = Ok tt
  /\ frames (snd (execute env code language w)) = (frames w ++ fs)%list
  /\ ~ In (Status "Running...") fs
  /\ exists ccmd,
       compile_command config = Ok ccmd
       /\ docker_runs (snd (execute env code language w))
          = (docker_runs w
               ++ [run_config (image config) ccmd (work_dir_of env)])%list.
Proof.
  intros Hl Ht (Ha & Hd & Hm & Hw) Hp fs.
  destruct (registry_commands _ _ Hl) as [[rcmd Hr] Hcc].
  destruct (Hcc Ht) as [ccmd Hcmd].
  rewrite (execute_allocated _ _ _ _ _ Hl Hd Hm).
  match goal with
  | |- context [try_finally ?m (rmtree env ?p) ?w0] =>
      destruct (try_finally_rmtree env p m w0) as (-> & -> & _ & _ & -> & _)
  end.
  unfold try_except.
  rewrite (execute_body_compiled _ _ _ _ _ _ ccmd rcmd) by assumption.
  cbv zeta. change (docker_runs (with_dir _ w)) with (docker_runs w).
  unfold compile_unit in *. rewrite Hp. unfold is_Exception.
  rewrite send_json_accepting by assumption.
  split; [reflexivity|]. split.
  { simpl. rewrite <- app_assoc. reflexivity. }
  split.
  - unfold fs. intros [H|H]; [discriminate H|].
    apply in_app_or in H. destruct H as [H|[H|[]]]; [|discriminate H].
    apply phase_frames_statuses in H. discriminate H.
  - exists ccmd. split; [exact Hcmd | reflexivity].
Qed.

Lemma X13_compile_fault_ends_session_witness :
  frames (snd (execute env_compile_spawn_fails cpp_code "cpp" initial_world))
  = [Status "Starting execution..."; Status "Compiling...";
     Error "500 Server Error: cannot allocate"].
Proof.
  refine (proj1 (proj2 (X13_compile_fault_ends_session env_compile_spawn_fails
                          cpp_code "cpp" cpp_profile initial_world
                          (mkExn APIError "500 Server Error: cannot allocate")
                          eq_refl eq_refl _ eq_refl))).
  split; [intros n; reflexivity | repeat split; reflexivity].
Defined.



(** ** Streaming *)

Lemma streamed_stops texts e rest :
  streamed (map Ok texts ++ Raise e :: rest) = (texts, Some e).
Proof. induction texts as [|t ts IH]; simpl; [reflexivity | now rewrite IH]. Qed.

(** X15: streaming stops at the first chunk that does not decode.  The
    chunks before it are forwarded, in order; the chunks after it are never
    sent and the exit code is not reported.  A decoding error leaves
    [_run_container] as an exception (it is not an [APIError]); an
    [APIError] at that point would be reported as "Docker error: ...". *)
Theorem X15_undecodable_chunk_stops_stream
        env image command work_dir status_msg w texts e rest :
  accepting env ->
  spawn_fault (container env (length (docker_runs w))) = None ->
  log_items (container env (length (docker_runs w)))
  = (map Ok texts ++ Raise e :: rest)%list ->
  let r := _run_container env image command work_dir status_msg w in
  (is_APIError e = false ->
   fst r = Raise e
   /\ frames (snd r) = (frames w ++ Status status_msg :: map Output texts)%list)
  /\ (is_APIError e = true ->
      fst r = Ok tt
      /\ frames (snd r)
         = (frames w ++ Status status_msg :: map Output texts
              ++ [docker_error_frame e])%list).
Proof.
  intros Ha Hs Hi r. subst r.
  rewrite _run_container_accepting by assumption. cbv zeta.
  unfold phase_result, phase_frames, try_outcome.
  rewrite Hs, Hi, streamed_stops. simpl.
  split; intros ->; split; reflexivity.
Qed.

Lemma X15_undecodable_chunk_stops_stream_witness :
  frames (snd (_run_container env_bad_chunk "python:3.11-slim" "python main.py"
                 "/tmp/code_execution/1b4e28ba" "Running..." initial_world))
  = [Status "Running..."; Output "a"].
Proof.
  refine (proj2 (proj1 (X15_undecodable_chunk_stops_stream env_bad_chunk
                          "python:3.11-slim" "python main.py"
                          "/tmp/code_execution/1b4e28ba" "Running..."
                          initial_world ["a"] _ [Ok "b"] _ eq_refl eq_refl)
                       eq_refl)).
  intros n; reflexivity.
Defined.

(** ** The exit code in the Error frame *)

Lemma to_int_not_nil z :
  Z.to_int z <> Decimal.Pos Decimal.Nil /\ Z.to_int z <> Decimal.Neg Decimal.Nil.
Proof.
  split; intros H;
    (assert (E : z = 0%Z) by (rewrite <- (DecimalZ.of_to z), H; reflexivity));
    subst z; discriminate H.
Qed.

Lemma str_int_inj n m : str_int n = str_int m -> n = m.
Proof.
  unfold str_int. intros H. apply DecimalZ.to_int_inj.
  apply (f_equal NilZero.int_of_string) in H.
  destruct (to_int_not_nil n), (to_int_not_nil m).
  rewrite !NilZero.isi in H by assumption. now injection H.
Qed.

Lemma append_inj_l (p a b : string) : p ++ a = p ++ b -> a = b.
Proof.
  induction p as [|c p IH]; [auto|].
  change (String c p ++ a) with (String c (p ++ a)).
  change (String c p ++ b) with (String c (p ++ b)).
  intros [= H]. auto.
Qed.

(** X16: the Error frame of a nonzero exit code determines the code: two
    different exit codes never give the same frame, so the number can be
    read back from the text. *)
Theorem X16_exit_code_frame_injective n m :
  n <> m -> exit_code_frame n <> exit_code_frame m.
Proof.
  intros Hn H. apply Hn. unfold exit_code_frame, Error in H.
  injection H as H. apply append_inj_l in H. now apply str_int_inj.
Qed.

Lemma X16_exit_code_frame_injective_witness :
  exit_code_frame 1 <> exit_code_frame 127.
Proof.
  apply (X16_exit_code_frame_injective 1 127). discriminate.
Defined.

(** ** The order of the Status frames *)

Lemma subseq_nil l : subseq [] l = true.
Proof. now destruct l. Qed.

Lemma status_frame_eq f d :
  ftype f = status -> String.eqb (fdata f) d = true -> f = Status d.
Proof.
  destruct f as [t x]. simpl. intros -> E. apply String.eqb_eq in E. now subst.
Qed.

Lemma run_from_statuses l s s' :
  run_from s l = Some s' ->
  subseq (filter is_status l) (statuses_from s) = true.
Proof.
  revert s. induction l as [|f l IH]; intros s; simpl.
  - intros _. apply subseq_nil.
  - destruct (step s f) as [s1|] eqn:E; [|discriminate].
    intros H. specialize (IH s1 H). unfold is_status.
    destruct (ftype f) eqn:Ef; simpl.
    + unfold step in E. rewrite Ef in E.
      destruct s; try discriminate;
        repeat match type of E with
               | (if String.eqb (fdata f) ?d then _ else _) = _ =>
                   let Ed := fresh "Ed" in
                   destruct (String.eqb (fdata f) d) eqn:Ed;
                   [rewrite (status_frame_eq f d Ef Ed) in *|]
               end;
        try discriminate; injection E as <-; simpl; exact IH.
    + unfold step in E. rewrite Ef in E.
      destruct s; try discriminate; injection E as <-; exact IH.
    + unfold step in E. rewrite Ef in E.
      destruct s; try discriminate; injection E as <-; simpl in IH |- *;
        try exact IH; now destruct (filter _ l).
Qed.

(** X17: on every path the Status frames of a session are, in this
    order and each at most once, "Starting execution...", "Compiling...",
    "Running..." and "Execution complete" (some of them may be missing). *)
Theorem X17_status_frames_in_order env w :
  subseq (filter is_status (session_frames env w))
         [Status "Starting execution..."; Status "Compiling...";
          Status "Running..."; Status "Execution complete"]
  = true.
Proof.
  destruct (session_frames_valid env w) as [_ [s H]].
  exact (run_from_statuses _ Created s H).
Qed.
